(** * CortexChat._retrieve_response: a shallow embedding of src/cortex_chat.py

    The development follows the layout of the Python method:

    - [Text]    the [str] operations the line loop uses ([startswith],
                slicing off an ASCII prefix, [strip], [in] on strings);
    - [Py]      decoded JSON values with the Python operations applied to
                them ([in], [x[k]], [.get], iteration, truthiness, [==]);
    - [Chat]    the method itself, written in a small state-and-exception
                monad over the attributes of [self], the locals of the
                method and the log of calls made to Slack;
    - [SpecAccumulator]  the fold of tool results in the words of the
                specification, kept apart from the source for comparison;
    - [Samples] concrete collaborators and streams;
    - [Props]   the vocabulary of the statements;
    - the properties, grouped by the part of the method they are about.

    Modelling notes.
    - A [string] holds the UTF-8 bytes of a Python [str].  All prefixes the
      code slices off are ASCII, so byte offsets and character offsets agree.
    - [print] calls and everything under [if DEBUG] are dropped: [DEBUG] is the
      constant [False] and those statements only write to stdout.
    - JSON numbers are integers; non-integer literals are outside the model.
    - [json.loads] either returns a value or raises [json.JSONDecodeError].
    - [json.loads], [str()] of a non-string value, the text of interpreter
      errors, the response parser and the two Slack entry points are
      collaborators: they are fields of records the model is parametrised by.
    - An object stored in [self.slack_say] or [self.slack_app] is truthy. *)

From Stdlib Require Import String Ascii List ZArith Bool Lia PeanoNat.
Import ListNotations.

Set Implicit Arguments.

(* ================================================================== *)
(** ** Text: Python [str] operations on UTF-8 encoded text *)

Module Text.

Local Open Scope string_scope.

(** [s.startswith(pre)] *)
Fixpoint startswith (s pre : string) : bool :=
  match pre with
  | EmptyString => true
  | String p pre' =>
      match s with
      | EmptyString => false
      | String c s' => Ascii.eqb c p && startswith s' pre'
      end
  end.

(** [s[n:]] for an ASCII prefix of [n] characters *)
Fixpoint drop (n : nat) (s : string) : string :=
  match n, s with
  | O, _ => s
  | S _, EmptyString => EmptyString
  | S n', String _ s' => drop n' s'
  end.

Fixpoint rev_acc (s acc : string) : string :=
  match s with
  | EmptyString => acc
  | String c s' => rev_acc s' (String c acc)
  end.

Definition rev (s : string) : string := rev_acc s EmptyString.

Definition chr (n : nat) : ascii := ascii_of_nat n.

Definition bytes (l : list nat) : string :=
  fold_right (fun n acc => String (chr n) acc) EmptyString l.

(** The characters [str.isspace] accepts, as UTF-8 byte sequences:
    U+0009..U+000D, U+001C..U+0020, U+0085, U+00A0, U+1680,
    U+2000..U+200A, U+2028, U+2029, U+202F, U+205F, U+3000. *)
Definition whitespace : list string :=
  map bytes
    [ [9]; [10]; [11]; [12]; [13]; [28]; [29]; [30]; [31]; [32];
      [194; 133]; [194; 160]; [225; 154; 128];
      [226; 128; 128]; [226; 128; 129]; [226; 128; 130]; [226; 128; 131];
      [226; 128; 132]; [226; 128; 133]; [226; 128; 134]; [226; 128; 135];
      [226; 128; 136]; [226; 128; 137]; [226; 128; 138];
      [226; 128; 168]; [226; 128; 169]; [226; 128; 175];
      [226; 129; 159]; [227; 128; 128] ].

(** the first pattern of [pats] that [s] starts with *)
Definition leading (pats : list string) (s : string) : option string :=
  find (startswith s) pats.

(** remove leading occurrences of the patterns; [fuel] bounds the number of
    characters removed and [String.length s] is always enough *)
Fixpoint lstrip_with (pats : list string) (fuel : nat) (s : string) : string :=
  match fuel with
  | O => s
  | S fuel' =>
      match s with
      | EmptyString => s
      | String _ _ =>
          match leading pats s with
          | Some w =>
              match w with
              | EmptyString => s
              | String _ _ => lstrip_with pats fuel' (drop (String.length w) s)
              end
          | None => s
          end
      end
  end.

Definition lstrip (s : string) : string :=
  lstrip_with whitespace (String.length s) s.

Definition rstrip (s : string) : string :=
  rev (lstrip_with (map rev whitespace) (String.length s) (rev s)).

(** [s.strip()] *)
Definition strip (s : string) : string := rstrip (lstrip s).

(** [needle in s] for two strings *)
Fixpoint contains (s needle : string) : bool :=
  startswith s needle ||
  match s with
  | EmptyString => false
  | String _ s' => contains s' needle
  end.

(** [len(s)]: the number of code points, that is of bytes that are not
    UTF-8 continuation bytes (10xxxxxx) *)
Fixpoint len (s : string) : nat :=
  match s with
  | EmptyString => O
  | String c s' =>
      let n := nat_of_ascii c in
      if Nat.leb 128 n && Nat.ltb n 192 then len s' else S (len s')
  end.

(** [sep.join(parts)] *)
Fixpoint join (sep : string) (parts : list string) : string :=
  match parts with
  | [] => EmptyString
  | [p] => p
  | p :: rest => p ++ sep ++ join sep rest
  end.

Definition newline : string := String (chr 10) EmptyString.

End Text.

(* ================================================================== *)
(** ** Py: decoded JSON values and the Python operations on them *)

Module Py.

Local Open Scope string_scope.

(** What [json.loads] returns.  The members of a [JObj] are the items of a
    Python [dict] in insertion order; their keys are distinct. *)
#[warnings="-register-all"]
Inductive json : Type :=
| JNull
| JBool (b : bool)
| JNum (z : Z)
| JStr (s : string)
| JArr (items : list json)
| JObj (members : list (string * json)).

(** The exception classes the handlers of [_retrieve_response] tell apart.
    [requests.exceptions.Timeout] is a [RequestException]; both clauses are
    tried in the order of the source, so [RequestException] below stands for
    the ones that are not timeouts.  [OtherException] is any other subclass
    of [Exception], [TypeError] and [AttributeError] among them. *)
Inductive exn_class : Type :=
| Timeout
| RequestException
| JSONDecodeError
| OtherException.

Record exn : Type := Exn { exn_class_of : exn_class; exn_str : string }.

Inductive result (A : Type) : Type :=
| Ok (a : A)
| Raise (e : exn).
Arguments Ok {A} a.
Arguments Raise {A} e.

(** The parts of the interpreter the method relies on. *)
Record Python : Type := {
  (** [json.loads]; [None] stands for [json.JSONDecodeError] *)
  json_loads : string -> option json;
  (** [str(v)] for a value that is not a [str], as an f-string formats it *)
  str_of : json -> string;
  (** the text of the [TypeError] / [AttributeError] raised on a value and
      of the [KeyError] raised on a key *)
  type_error_str : json -> string;
  attribute_error_str : json -> string;
  key_error_str : string -> string
}.

Definition eqb_class (a b : exn_class) : bool :=
  match a, b with
  | Timeout, Timeout | RequestException, RequestException
  | JSONDecodeError, JSONDecodeError | OtherException, OtherException => true
  | _, _ => false
  end.

(** [bool(v)] *)
Definition truthy (v : json) : bool :=
  match v with
  | JNull => false
  | JBool b => b
  | JNum z => negb (Z.eqb z 0)
  | JStr s => negb (String.eqb s "")
  | JArr l => match l with [] => false | _ => true end
  | JObj m => match m with [] => false | _ => true end
  end.

(** [d.get(k)] on the items of a dict *)
Fixpoint lookup (k : string) (m : list (string * json)) : option json :=
  match m with
  | [] => None
  | (k', v) :: m' => if String.eqb k k' then Some v else lookup k m'
  end.

(** [a == b] *)
Fixpoint equal (a b : json) {struct a} : bool :=
  match a, b with
  | JNull, JNull => true
  | JBool x, JBool y => Bool.eqb x y
  | JBool x, JNum z => Z.eqb (Z.b2z x) z
  | JNum z, JBool x => Z.eqb z (Z.b2z x)
  | JNum x, JNum y => Z.eqb x y
  | JStr x, JStr y => String.eqb x y
  | JArr xs, JArr ys =>
      (fix all2 (xs ys : list json) {struct xs} : bool :=
         match xs, ys with
         | [], [] => true
         | x :: xs', y :: ys' => equal x y && all2 xs' ys'
         | _, _ => false
         end) xs ys
  | JObj xs, JObj ys =>
      Nat.eqb (length xs) (length ys) &&
      (fix all (xs : list (string * json)) {struct xs} : bool :=
         match xs with
         | [] => true
         | (k, v) :: xs' =>
             match lookup k ys with
             | Some w => equal v w && all xs'
             | None => false
             end
         end) xs
  | _, _ => false
  end.

(** [v in l] for a list [l] *)
Definition mem (v : json) (l : list json) : bool := existsb (equal v) l.

Section Operations.

Variable py : Python.

Definition type_error {A} (v : json) : result A :=
  Raise (Exn OtherException (type_error_str py v)).

Definition attribute_error {A} (v : json) : result A :=
  Raise (Exn OtherException (attribute_error_str py v)).

(** [k in v] for a string literal [k] *)
Definition contains (k : string) (v : json) : result bool :=
  match v with
  | JObj m => Ok (match lookup k m with Some _ => true | None => false end)
  | JArr l => Ok (mem (JStr k) l)
  | JStr s => Ok (Text.contains s k)
  | JNull | JBool _ | JNum _ => type_error v
  end.

(** [v[k]] for a string literal [k], evaluated only after [k in v] held;
    a list or a string cannot be indexed by a string *)
Definition getitem (v : json) (k : string) : result json :=
  match v with
  | JObj m =>
      match lookup k m with
      | Some x => Ok x
      | None => Raise (Exn OtherException (key_error_str py k))
      end
  | _ => type_error v
  end.

(** [v.get(k)]: [None] of Python is [JNull] *)
Definition get (v : json) (k : string) : result json :=
  match v with
  | JObj m => Ok (match lookup k m with Some x => x | None => JNull end)
  | _ => attribute_error v
  end.

(** [v.get(k, default)] *)
Definition get_default (v : json) (k : string) (default : json) : result json :=
  match v with
  | JObj m => Ok (match lookup k m with Some x => x | None => default end)
  | _ => attribute_error v
  end.

(** [v.get(k) is None] given the value of [v.get(k)] *)
Definition is_none (v : json) : bool :=
  match v with JNull => true | _ => false end.

(** the elements [for x in v] visits: the items of a list, the keys of a
    dict, the characters of a string (one per byte here; the loop calls
    [.get] on each element and a one-character [str] has none, whatever its
    width) *)
Definition iter (v : json) : result (list json) :=
  match v with
  | JArr l => Ok l
  | JObj m => Ok (map (fun kv => JStr (fst kv)) m)
  | JStr s => Ok (map (fun c => JStr (String c EmptyString)) (list_ascii_of_string s))
  | JNull | JBool _ | JNum _ => type_error v
  end.

(** [len(v)] *)
Definition len (v : json) : result nat :=
  match v with
  | JArr l => Ok (length l)
  | JObj m => Ok (length m)
  | JStr s => Ok (Text.len s)
  | JNull | JBool _ | JNum _ => type_error v
  end.

(** [f"{v}"] *)
Definition format (v : json) : string :=
  match v with
  | JStr s => s
  | _ => str_of py v
  end.

End Operations.

End Py.

(* ================================================================== *)
(** ** Chat: the class [CortexChat] *)

Module Chat.

Import Py.
Local Open Scope string_scope.

(** *** The Slack surface

    A call is recorded with the arguments that vary; the fixed texts and
    block layouts of the source are named by the constructor. *)

(** [self.slack_say(text=..., blocks=...)] *)
Inductive post : Type :=
| Thinking                                       (* lines 72-83 *)
| ProgressUpdate (latest_updates : list json)    (* lines 294-305 *)
| CompletedSteps (all_updates : list json)       (* lines 401-412 *)
| CompletedCount (steps : nat)                   (* lines 416-427 *)
| ErrorMessage (slack_title error_msg : string). (* lines 470-476 *)

(** the entries of [additional_info] at lines 349-354 *)
Inductive info : Type :=
| Verified
| SqlQueries (query_count : nat).

(** [self.slack_app.client.chat_update(channel=..., ts=..., ...)] *)
Inductive update : Type :=
| LatestStep (channel ts : string) (latest_step : json)                    (* lines 151-155 *)
| PlanningSteps (channel ts : string) (step_count : nat) (latest_step : json) (* lines 259-286 *)
| Completed (channel ts : string) (step_count : nat) (additional_info : list info). (* lines 364-391 *)

Inductive call : Type :=
| Say (p : post)
| ChatUpdate (u : update).

(** The callable stored in [self.slack_say]: its reply to the [n]-th call
    (counting from 0) with the given arguments.  It raises, or it returns an
    object; [Some ts] is the value of [result.get('ts')] when the object has
    a [get] and that value is a string, [None] otherwise. *)
Definition say_function : Type := nat -> post -> result (option string).

(** The object stored in [self.slack_app]: its [_channel_id] attribute, if
    set, and the reply of [client.chat_update] to its [n]-th call. *)
Record SlackApp : Type := {
  channel_id : option string;
  chat_update : nat -> update -> result unit
}.

(** [CortexResponseParser] is not part of the sources at hand: its three
    methods are taken as they come. *)
Record CortexResponseParser : Type := {
  parsed : Type;
  parse_sse_response : list string -> result parsed;
  parse_json_response : string -> result parsed;
  extract_summary : parsed -> result json
}.

(** The attributes [__init__] sets (lines 15-19); [agent_url] and [pat] only
    feed the request, whose outcome is an argument of the method. *)
Record CortexChat : Type := {
  parser : CortexResponseParser;
  slack_say : option say_function;
  slack_app : option SlackApp
}.

(** What [requests.post(..., stream=True)] hands back once
    [raise_for_status] has passed: the lines [iter_lines] yields, decoded,
    and the exception that ends the iteration early, if any (a read timeout,
    a reset connection, bytes that are not UTF-8). *)
Record Response : Type := {
  iter_lines : list string;
  fault : option exn
}.

(** *** The store: attributes of [self], locals of the method, calls made *)

Record store : Type := Store {
  (* attributes of self assigned by the method *)
  planning_message_ts : option string;
  planning_channel : option string;
  planning_steps : option (list json);
  sql_queries : option json;
  verification_info : option json;
  verified_query_used : option json;
  (* locals of _retrieve_response *)
  response_lines : list string;
  tools_used : list json;
  current_thinking : string;
  planning_updates : list json;
  line_count : nat;
  current_event : option string;
  (* the calls made to Slack so far, oldest first *)
  calls : list call
}.

Definition empty_store : store :=
  Store None None None None None None [] [] "" [] 0 None [].

Definition set_planning_message_ts (v : option string) (s : store) : store :=
  Store v (planning_channel s) (planning_steps s) (sql_queries s)
        (verification_info s) (verified_query_used s) (response_lines s)
        (tools_used s) (current_thinking s) (planning_updates s)
        (line_count s) (current_event s) (calls s).

Definition set_planning_channel (v : option string) (s : store) : store :=
  Store (planning_message_ts s) v (planning_steps s) (sql_queries s)
        (verification_info s) (verified_query_used s) (response_lines s)
        (tools_used s) (current_thinking s) (planning_updates s)
        (line_count s) (current_event s) (calls s).

Definition set_planning_steps (v : option (list json)) (s : store) : store :=
  Store (planning_message_ts s) (planning_channel s) v (sql_queries s)
        (verification_info s) (verified_query_used s) (response_lines s)
        (tools_used s) (current_thinking s) (planning_updates s)
        (line_count s) (current_event s) (calls s).

Definition set_sql_queries (v : option json) (s : store) : store :=
  Store (planning_message_ts s) (planning_channel s) (planning_steps s) v
        (verification_info s) (verified_query_used s) (response_lines s)
        (tools_used s) (current_thinking s) (planning_updates s)
        (line_count s) (current_event s) (calls s).

Definition set_verification_info (v : option json) (s : store) : store :=
  Store (planning_message_ts s) (planning_channel s) (planning_steps s) (sql_queries s)
        v (verified_query_used s) (response_lines s)
        (tools_used s) (current_thinking s) (planning_updates s)
        (line_count s) (current_event s) (calls s).

Definition set_verified_query_used (v : option json) (s : store) : store :=
  Store (planning_message_ts s) (planning_channel s) (planning_steps s) (sql_queries s)
        (verification_info s) v (response_lines s)
        (tools_used s) (current_thinking s) (planning_updates s)
        (line_count s) (current_event s) (calls s).

Definition set_response_lines (v : list string) (s : store) : store :=
  Store (planning_message_ts s) (planning_channel s) (planning_steps s) (sql_queries s)
        (verification_info s) (verified_query_used s) v
        (tools_used s) (current_thinking s) (planning_updates s)
        (line_count s) (current_event s) (calls s).

Definition set_tools_used (v : list json) (s : store) : store :=
  Store (planning_message_ts s) (planning_channel s) (planning_steps s) (sql_queries s)
        (verification_info s) (verified_query_used s) (response_lines s)
        v (current_thinking s) (planning_updates s)
        (line_count s) (current_event s) (calls s).

Definition set_current_thinking (v : string) (s : store) : store :=
  Store (planning_message_ts s) (planning_channel s) (planning_steps s) (sql_queries s)
        (verification_info s) (verified_query_used s) (response_lines s)
        (tools_used s) v (planning_updates s)
        (line_count s) (current_event s) (calls s).

Definition set_planning_updates (v : list json) (s : store) : store :=
  Store (planning_message_ts s) (planning_channel s) (planning_steps s) (sql_queries s)
        (verification_info s) (verified_query_used s) (response_lines s)
        (tools_used s) (current_thinking s) v
        (line_count s) (current_event s) (calls s).

Definition set_line_count (v : nat) (s : store) : store :=
  Store (planning_message_ts s) (planning_channel s) (planning_steps s) (sql_queries s)
        (verification_info s) (verified_query_used s) (response_lines s)
        (tools_used s) (current_thinking s) (planning_updates s)
        v (current_event s) (calls s).

Definition set_current_event (v : option string) (s : store) : store :=
  Store (planning_message_ts s) (planning_channel s) (planning_steps s) (sql_queries s)
        (verification_info s) (verified_query_used s) (response_lines s)
        (tools_used s) (current_thinking s) (planning_updates s)
        (line_count s) v (calls s).

Definition set_calls (v : list call) (s : store) : store :=
  Store (planning_message_ts s) (planning_channel s) (planning_steps s) (sql_queries s)
        (verification_info s) (verified_query_used s) (response_lines s)
        (tools_used s) (current_thinking s) (planning_updates s)
        (line_count s) (current_event s) v.

(** *** Statements: store in, value or exception and store out.  What a
    statement did to the store before it raised stays done. *)

Definition M (A : Type) : Type := store -> result A * store.

Definition ret {A} (a : A) : M A := fun s => (Ok a, s).

Definition bind {A B} (c : M A) (k : A -> M B) : M B :=
  fun s =>
    match c s with
    | (Ok a, s') => k a s'
    | (Raise e, s') => (Raise e, s')
    end.

Definition raise {A} (e : exn) : M A := fun s => (Raise e, s).

Definition lift {A} (r : result A) : M A := fun s => (r, s).

Definition get_store : M store := fun s => (Ok s, s).

Definition modify (f : store -> store) : M unit := fun s => (Ok tt, f s).

(** [try: c  except <classes accepted by handles> as e: h e] *)
Definition try_except {A} (c : M A) (handles : exn -> bool) (h : exn -> M A) : M A :=
  fun s =>
    match c s with
    | (Ok a, s') => (Ok a, s')
    | (Raise e, s') => if handles e then h e s' else (Raise e, s')
    end.

Notation "x <- c1 ;; c2" := (bind c1 (fun x => c2))
  (at level 61, c1 at next level, right associativity).
Notation "c1 ;; c2" := (bind c1 (fun _ => c2))
  (at level 61, right associativity).

Definition pass : M unit := ret tt.

Definition when (b : bool) (c : M unit) : M unit := if b then c else pass.

Fixpoint for_each {A} (body : A -> M unit) (l : list A) : M unit :=
  match l with
  | [] => pass
  | x :: l' => body x ;; for_each body l'
  end.

(** [except Exception] *)
Definition any_exception (e : exn) : bool := true.

(** [except json.JSONDecodeError] *)
Definition json_decode_error (e : exn) : bool :=
  eqb_class (exn_class_of e) JSONDecodeError.

(** [current_event == name], where [current_event] is a string or [None] *)
Definition event_is (current_event : option string) (name : string) : bool :=
  match current_event with
  | Some e => String.eqb e name
  | None => false
  end.

(** the value of an attribute holding a string or [None], when it is truthy *)
Definition nonempty (v : option string) : option string :=
  match v with
  | Some s => if String.eqb s "" then None else Some s
  | None => None
  end.

Definition is_say (c : call) : bool :=
  match c with Say _ => true | ChatUpdate _ => false end.

Definition is_chat_update (c : call) : bool :=
  match c with Say _ => false | ChatUpdate _ => true end.

Definition call_slack_say (say : say_function) (p : post) : M (option string) :=
  fun s =>
    (say (length (filter is_say (calls s))) p,
     set_calls (calls s ++ [Say p]) s).

Definition call_chat_update (app : SlackApp) (u : update) : M unit :=
  fun s =>
    (chat_update app (length (filter is_chat_update (calls s))) u,
     set_calls (calls s ++ [ChatUpdate u]) s).

(** [l[-n:]] *)
Definition lastn {A} (n : nat) (l : list A) : list A :=
  skipn (length l - n) l.

(** *** The method *)

Section Method.

Variable py : Python.
Variable self : CortexChat.

(** [planning_updates[-1] if planning_updates else "Processing..."] *)
Definition latest_of (updates : list json) : json :=
  last updates (JStr "Processing...").

(** lines 465-477 *)
Definition _handle_error (error_msg slack_title : string) : M json :=
  match slack_say self with
  | Some say => call_slack_say say (ErrorMessage slack_title error_msg) ;; pass
  | None => pass
  end ;;
  ret (JObj [("text", JStr ("Error: " ++ error_msg));
             ("sql_queries", JArr []);
             ("citations", JArr [])]).

(** lines 124-161: a frame read under [event: response.status] *)
Definition on_response_status (json_data : json) : M unit :=
  has_message <- lift (contains py "message" json_data) ;;
  when has_message
    (status_msg <- lift (getitem py json_data "message") ;;
     modify (fun s => set_planning_updates (planning_updates s ++ [status_msg]) s) ;;
     s <- get_store ;;
     match slack_app self, nonempty (planning_message_ts s), nonempty (planning_channel s) with
     | Some app, Some ts, Some channel =>
         try_except
           (call_chat_update app
              (LatestStep channel ts (latest_of (planning_updates s))))
           any_exception
           (fun _ => pass)
     | _, _, _ => pass
     end).

(** lines 177-233: one entry of [delta['content']] *)
Definition on_content_item (content_item : json) : M unit :=
  type <- lift (get py content_item "type") ;;
  if equal type (JStr "text") then
    text_delta <- lift (get_default py content_item "text" (JStr "")) ;;
    when (truthy text_delta)
      match text_delta with
      | JStr t => modify (fun s => set_current_thinking (current_thinking s ++ t) s)
      | _ => lift (type_error py text_delta)
      end
  else if equal type (JStr "tool_use") then
    tool_data <- lift (get_default py content_item "tool_use" (JObj [])) ;;
    tool_name <- lift (get_default py tool_data "name" (JStr "unknown")) ;;
    s <- get_store ;;
    when (negb (mem tool_name (tools_used s)))
      (modify (fun s => set_tools_used (tools_used s ++ [tool_name]) s) ;;
       modify (fun s => set_planning_updates
                          (planning_updates s ++ [JStr ("Using " ++ format py tool_name)]) s))
  else if equal type (JStr "tool_result") then
    (* lines 209-233: the payload is fetched and only looked at under DEBUG *)
    lift (get_default py content_item "tool_result" (JObj [])) ;; pass
  else pass.

(** lines 170-233: a frame whose [object] is ["message.delta"] *)
Definition on_message_delta (json_data : json) : M unit :=
  delta <- lift (get_default py json_data "delta" (JObj [])) ;;
  has_content <- lift (contains py "content" delta) ;;
  when has_content
    (content <- lift (getitem py delta "content") ;;
     items <- lift (iter py content) ;;
     for_each on_content_item items).

(** lines 250-305: the refresh made on an even number of planning steps *)
Definition refresh_planning_message (app : SlackApp) (ts : string) : M unit :=
  s <- get_store ;;
  try_except
    (match nonempty (channel_id app) with
     | Some channel =>
         call_chat_update app
           (PlanningSteps channel ts (length (planning_updates s))
                          (latest_of (planning_updates s)))
     | None => pass
     end)
    any_exception
    (fun _ =>
       match slack_say self with
       | Some say =>
           call_slack_say say (ProgressUpdate (lastn 3 (planning_updates s))) ;; pass
       | None => pass
       end).

(** lines 236-314: a frame without an [object]; the [tool_metadata] part is
    display under DEBUG only *)
Definition on_untyped_object (json_data : json) : M unit :=
  has_status <- lift (contains py "status" json_data) ;;
  when has_status
    (status <- lift (get_default py json_data "status" (JStr "")) ;;
     status_msg <- lift (get_default py json_data "status_message" (JStr "")) ;;
     when (truthy status && negb (mem status [JStr "REASONING_AGENT_STOP"]))
       (when (truthy status_msg)
          (modify (fun s => set_planning_updates (planning_updates s ++ [status_msg]) s) ;;
           s <- get_store ;;
           match slack_app self, nonempty (planning_message_ts s) with
           | Some app, Some ts =>
               when (Nat.eqb (Nat.modulo (length (planning_updates s)) 2) 0)
                 (refresh_planning_message app ts)
           | _, _ => pass
           end))).

(** lines 122-314: what the loop does with a decoded frame *)
Definition on_frame (json_data : json) : M unit :=
  s <- get_store ;;
  if event_is (current_event s) "response.status" then on_response_status json_data
  else if event_is (current_event s) "response" then pass
  else
    object <- lift (get py json_data "object") ;;
    if equal object (JStr "message.delta") then on_message_delta json_data
    else if is_none object then on_untyped_object json_data
    else pass.

(** how an iteration of the [for] loop ends *)
Inductive flow : Type :=
| Next
| Break.

(** lines 101-317: the body of the loop over [response.iter_lines()] *)
Definition on_line (line : string) : M flow :=
  modify (fun s => set_line_count (line_count s + 1) s) ;;
  if String.eqb line "" then ret Next
  else
    modify (fun s => set_response_lines (response_lines s ++ [line]) s) ;;
    if Text.startswith line "event: " then
      modify (set_current_event (Some (Text.strip (Text.drop 7 line)))) ;;
      ret Next
    else if Text.startswith line "data: " then
      let data_content := Text.strip (Text.drop 6 line) in
      if String.eqb data_content "[DONE]" then ret Break
      else if negb (Text.startswith data_content "[") then
        match json_loads py data_content with
        | Some json_data =>
            try_except (on_frame json_data) json_decode_error (fun _ => pass) ;;
            ret Next
        | None => ret Next
        end
      else ret Next
    else ret Next.

(** line 100: the loop, ended by [break], by the end of the stream or by the
    exception the stream raises *)
Fixpoint for_lines (lines : list string) (fault : option exn) : M unit :=
  match lines with
  | [] =>
      match fault with
      | Some e => raise e
      | None => pass
      end
  | line :: rest =>
      f <- on_line line ;;
      match f with
      | Break => pass
      | Next => for_lines rest fault
      end
  end.

(** lines 345-356: [additional_info]; any exception leaves it empty *)
Definition additional_info_of (summary : json) : list info :=
  match get py summary "verification_info",
        get py summary "verified_query_used",
        get_default py summary "sql_queries" (JArr []) with
  | Ok v, Ok u, Ok q =>
      if truthy v || truthy u then [Verified]
      else if truthy q then
        match len py q with
        | Ok query_count => [SqlQueries query_count]
        | Raise _ => []
        end
      else []
  | _, _, _ => []
  end.

(** lines 337-427: the completion message *)
Definition finish_planning_message (summary : json) : M unit :=
  s <- get_store ;;
  match planning_updates s with
  | [] => pass
  | _ :: _ =>
      match slack_app self, nonempty (planning_message_ts s) with
      | Some app, Some ts =>
          try_except
            (match nonempty (planning_channel s) with
             | Some channel =>
                 call_chat_update app
                   (Completed channel ts (length (planning_updates s))
                              (additional_info_of summary))
             | None => raise (Exn OtherException "No channel available")
             end)
            any_exception
            (fun _ =>
               match slack_say self with
               | Some say => call_slack_say say (CompletedSteps (planning_updates s)) ;; pass
               | None => pass
               end)
      | _, _ =>
          match slack_say self with
          | Some say =>
              call_slack_say say (CompletedCount (length (planning_updates s))) ;; pass
          | None => pass
          end
      end
  end.

(** lines 319-325: the choice of the parser entry point *)
Definition has_sse_data (lines : list string) : bool :=
  existsb (fun line => Text.startswith line "data: ") lines.

Definition parse_response (lines : list string) : result (parsed (parser self)) :=
  if has_sse_data lines then parse_sse_response (parser self) lines
  else parse_json_response (parser self) (Text.join Text.newline lines).

(** lines 67-99: the first message and the initial values of the locals *)
Definition start_turn : M unit :=
  modify (set_planning_message_ts None) ;;
  modify (set_planning_channel
            (match slack_app self with
             | Some app => channel_id app
             | None => None
             end)) ;;
  match slack_say self with
  | Some say =>
      result <- call_slack_say say Thinking ;;
      match nonempty result with
      | Some ts => modify (set_planning_message_ts (Some ts))
      | None => pass
      end
  | None => pass
  end ;;
  modify (fun s => set_response_lines []
                     (set_tools_used []
                        (set_current_thinking ""
                           (set_planning_updates []
                              (set_line_count 0
                                 (set_current_event None s)))))).

(** lines 319-444: parsing, the attributes kept for the planning details,
    the completion message, and the value returned *)
Definition finish_turn : M json :=
  s <- get_store ;;
  parsed_response <- lift (parse_response (response_lines s)) ;;
  summary <- lift (extract_summary (parser self) parsed_response) ;;
  (* lines 331-334 *)
  modify (set_planning_steps (Some (planning_updates s))) ;;
  q <- lift (get_default py summary "sql_queries" (JArr [])) ;;
  modify (set_sql_queries (Some q)) ;;
  v <- lift (get_default py summary "verification_info" (JObj [])) ;;
  modify (set_verification_info (Some v)) ;;
  u <- lift (get_default py summary "verified_query_used" (JBool false)) ;;
  modify (set_verified_query_used (Some u)) ;;
  finish_planning_message summary ;;
  ret summary.

(** lines 58-444: the [try] block; [transport] is what
    [requests.post] followed by [raise_for_status] comes to *)
Definition try_block (transport : result Response) : M json :=
  response <- lift transport ;;
  start_turn ;;
  for_lines (iter_lines response) (fault response) ;;
  finish_turn.

(** lines 446-463: the three [except] clauses *)
Definition except_clauses (e : exn) : M json :=
  match exn_class_of e with
  | Timeout =>
      _handle_error "Request took longer than 120 seconds" "Request timeout"
  | RequestException =>
      _handle_error ("Request error: " ++ exn_str e) "Request failed"
  | JSONDecodeError | OtherException =>
      _handle_error ("Unexpected error: " ++ exn_str e) "Unexpected error"
  end.

(** lines 21-463 *)
Definition _retrieve_response (transport : result Response) : M json :=
  try_except (try_block transport) any_exception except_clauses.

(** lines 492-498 *)
Definition chat (transport : result Response) : M json :=
  _retrieve_response transport.

End Method.

End Chat.
(* ================================================================== *)
(** ** SpecAccumulator: the fold of tool results as the specification words
    it, to be compared with the loop *)

Module SpecAccumulator.

Import Py.
Local Open Scope string_scope.

(** Section 4.3: the verification-related keys. *)
Definition verification_keys : list string :=
  ["verification"; "validated"; "query_verified"; "verified_query_used";
   "query_validation"].

(** Section 3: the two verification fields of [AccumulatorState],
    [verification_info], a mapping of verification-related keys to values,
    and [verified_query_used]. *)
Record AccumulatorState : Type := {
  verification_info : list (string * json);
  verified_query_used : bool
}.

(** the verification-related keys found in a dict, with their values *)
Definition found (members : list (string * json)) : list (string * json) :=
  flat_map (fun k => match lookup k members with
                     | Some v => [(k, v)]
                     | None => []
                     end)
           verification_keys.

(** Section 4.3: the signals of a tool-result payload, that is the keys
    found at its top level, then the keys found in its nested [json]
    sub-object, if present. *)
Definition signals (payload : json) : list (string * json) :=
  match payload with
  | JObj members =>
      (found members
         ++ match lookup "json" members with
            | Some (JObj sub) => found sub
            | _ => []
            end)%list
  | _ => []
  end.

(** one key merged into the mapping, [info[k] = v] *)
Fixpoint assign (k : string) (v : json) (info : list (string * json))
  : list (string * json) :=
  match info with
  | [] => [(k, v)]
  | (k', v') :: info' =>
      if String.eqb k k' then (k, v) :: info' else (k', v') :: assign k v info'
  end.

(** bindings merged into the mapping, in order *)
Fixpoint merge (info bindings : list (string * json)) : list (string * json) :=
  match bindings with
  | [] => info
  | (k, v) :: rest => merge (assign k v info) rest
  end.

Section Fold.

(** Section 4.3 leaves open when a signal indicates a verified query: the
    test is a parameter of the fold. *)
Variable indicates : string -> json -> bool.

(** The fold of a [ToolResult] event into the verification fields, in the
    words of section 4.3: a [ToolResult] merges any verification-related
    keys found, checking both the top level of the payload and a nested
    [json] sub-object if present, and sets [verified_query_used] true if any
    such signal indicates a verified query; and of section 3: once set,
    [verified_query_used] is never reset.  This is not taken from the source;
    the loop of the source is [Chat.on_content_item]. *)
Definition spec_fold_tool_result (acc : AccumulatorState) (payload : json)
  : AccumulatorState :=
  {| verification_info := merge (verification_info acc) (signals payload);
     verified_query_used :=
       verified_query_used acc
       || existsb (fun kv => indicates (fst kv) (snd kv)) (signals payload) |}.

End Fold.

(** a payload carries the key [k] with the value [v], at its top level or
    in its nested [json] sub-object *)
Definition carries (payload : json) (k : string) (v : json) : Prop :=
  exists members,
    payload = JObj members
    /\ (lookup k members = Some v
        \/ exists sub, lookup "json" members = Some (JObj sub)
                       /\ lookup k sub = Some v).

End SpecAccumulator.

(* ================================================================== *)
(** ** Samples: concrete collaborators and streams the examples run on *)

Module Samples.

Import Py Chat.
Local Open Scope string_scope.

(** a JSON string literal: the text between two double quotes *)
Definition quoted (s : string) : string :=
  String "034"%char (s ++ String "034"%char "").

(** [{"message": "Searching"}] *)
Definition searching_text : string :=
  "{" ++ quoted "message" ++ ": " ++ quoted "Searching" ++ "}".

Definition searching : json := JObj [("message", JStr "Searching")].

(** [{"status": "EXECUTING", "status_message": "Running the query"}] *)
Definition running_text : string :=
  "{" ++ quoted "status" ++ ": " ++ quoted "EXECUTING" ++ ", "
      ++ quoted "status_message" ++ ": " ++ quoted "Running the query" ++ "}".

Definition running : json :=
  JObj [("status", JStr "EXECUTING"); ("status_message", JStr "Running the query")].

(** [{"object": "message.delta", "delta": {"content":
      [{"type": "tool_use", "tool_use": {"name": "cortex_search"}}]}}] *)
Definition tool_use_text : string :=
  "{" ++ quoted "object" ++ ": " ++ quoted "message.delta" ++ ", "
      ++ quoted "delta" ++ ": {" ++ quoted "content" ++ ": [{"
      ++ quoted "type" ++ ": " ++ quoted "tool_use" ++ ", "
      ++ quoted "tool_use" ++ ": {" ++ quoted "name" ++ ": "
      ++ quoted "cortex_search" ++ "}}]}}".

Definition cortex_search_item : json :=
  JObj [("type", JStr "tool_use");
        ("tool_use", JObj [("name", JStr "cortex_search")])].

Definition tool_use : json :=
  JObj [("object", JStr "message.delta");
        ("delta", JObj [("content", JArr [cortex_search_item])])].

(** [[1, 2, 3]] *)
Definition array_text : string := "[1, 2, 3]".

Definition array : json := JArr [JNum 1; JNum 2; JNum 3].

(** a tool result that carries a verification flag in its nested [json] *)
Definition verified_result : json :=
  JObj [("content", JArr []);
        ("json", JObj [("sql", JStr "SELECT 1");
                       ("verified_query_used", JBool true)])].

Definition verified_result_item : json :=
  JObj [("type", JStr "tool_result"); ("tool_result", verified_result)].

(** a payload [json.loads] rejects *)
Definition truncated_text : string := "{" ++ quoted "message" ++ ": ".

(** the lines that carry these payloads *)
Definition status_event_line : string := "event: response.status".
Definition searching_line : string := "data: " ++ searching_text.
Definition running_line : string := "data: " ++ running_text.
Definition tool_use_line : string := "data: " ++ tool_use_text.
Definition array_line : string := "data: " ++ array_text.
Definition truncated_line : string := "data: " ++ truncated_text.

(** [json.loads] on the payloads above; the other fields are not
    exercised by the samples *)
Definition sample_loads (s : string) : option json :=
  if String.eqb s searching_text then Some searching
  else if String.eqb s running_text then Some running
  else if String.eqb s tool_use_text then Some tool_use
  else if String.eqb s array_text then Some array
  else None.

Definition python : Python := {|
  json_loads := sample_loads;
  str_of := fun _ => "";
  type_error_str := fun _ => "TypeError";
  attribute_error_str := fun _ => "AttributeError";
  key_error_str := fun k => k
|}.

(** a parser that answers the empty summary *)
Definition empty_summary : json :=
  JObj [("text", JStr ""); ("sql_queries", JArr []); ("citations", JArr [])].

Definition sample_parser : CortexResponseParser := {|
  parsed := unit;
  parse_sse_response := fun _ => Ok tt;
  parse_json_response := fun _ => Ok tt;
  extract_summary := fun _ => Ok empty_summary
|}.

(** Slack accepts every call and answers the first post with a timestamp *)
Definition say_ok : say_function := fun _ _ => Ok (Some "1700000000.000100").

Definition app_ok : SlackApp := {|
  channel_id := Some "C0123456789";
  chat_update := fun _ _ => Ok tt
|}.

(** Slack rejects the first update of the message and accepts the later ones *)
Definition app_first_update_fails : SlackApp := {|
  channel_id := Some "C0123456789";
  chat_update := fun n _ =>
    match n with
    | O => Raise (Exn OtherException "message_not_found")
    | S _ => Ok tt
    end
|}.

(** Slack rejects every post *)
Definition say_fails : say_function :=
  fun _ _ => Raise (Exn OtherException "channel_not_found").

Definition chat_with (say : option say_function) (app : option SlackApp) : CortexChat := {|
  parser := sample_parser;
  slack_say := say;
  slack_app := app
|}.

Definition stream (lines : list string) : result Response :=
  Ok {| iter_lines := lines; fault := None |}.

Definition timeout : exn := Exn Timeout "Read timed out.".

Definition done : string := "data: [DONE]".

End Samples.

(* ================================================================== *)
(** ** Props: the vocabulary of the statements *)

Module Props.

Import Py Chat.
Local Open Scope string_scope.

(** [data_content] of a [data: ] line (line 112) *)
Definition payload (line : string) : string := Text.strip (Text.drop 6 line).

(** the line is [data: [DONE]], up to blanks around the payload *)
Definition done_line (line : string) : bool :=
  Text.startswith line "data: " && String.eqb (payload line) "[DONE]".

(** the store after a non-empty line the loop only counts and collects *)
Definition collected (line : string) (s : store) : store :=
  set_response_lines (response_lines s ++ [line])
    (set_line_count (line_count s + 1) s).

(** a statement relates the store it starts in to the one it ends in by [R],
    whether it returns or raises *)
Definition preserves (R : store -> store -> Prop) {A} (c : M A) : Prop :=
  forall s, R s (snd (c s)).

(** the loop bookkeeping is the same in both stores *)
Definition same_lines (s s' : store) : Prop :=
  line_count s' = line_count s /\ response_lines s' = response_lines s.

(** [s'] has the calls of [s] followed by calls that all satisfy [keep] *)
Definition appends (keep : call -> bool) (s s' : store) : Prop :=
  exists added, calls s' = (calls s ++ added)%list /\ forallb keep added = true.

Definition is_thinking (c : call) : bool :=
  match c with
  | Say Thinking => true
  | _ => false
  end.

Definition is_error_message (c : call) : bool :=
  match c with
  | Say (ErrorMessage _ _) => true
  | _ => false
  end.

Definition not_thinking (c : call) : bool := negb (is_thinking c).

Definition not_error_message (c : call) : bool := negb (is_error_message c).

(** the dict [_handle_error] returns (line 477) *)
Definition error_summary (error_msg : string) : json :=
  JObj [("text", JStr ("Error: " ++ error_msg));
        ("sql_queries", JArr []);
        ("citations", JArr [])].

(** the two arguments the [except] clauses pass to [_handle_error] *)
Definition error_msg_of (e : exn) : string :=
  match exn_class_of e with
  | Timeout => "Request took longer than 120 seconds"
  | RequestException => "Request error: " ++ exn_str e
  | JSONDecodeError | OtherException => "Unexpected error: " ++ exn_str e
  end.

Definition slack_title_of (e : exn) : string :=
  match exn_class_of e with
  | Timeout => "Request timeout"
  | RequestException => "Request failed"
  | JSONDecodeError | OtherException => "Unexpected error"
  end.

(** C1 as the specification words it: whenever the request fails, the call
    returns a summary of the error shape *)
Definition returns_error_summary (py : Python) (self : CortexChat) (e : exn) : Prop :=
  exists error_msg,
    fst (chat py self (Raise e) empty_store) = Ok (error_summary error_msg).

(** C4 as the specification words it: in a turn that has seen no status
    event (no planning step was recorded), no [Thinking] message exists *)
Definition created_lazily (py : Python) (self : CortexChat) (lines : list string) : Prop :=
  let s' := snd (chat py self (Ok {| iter_lines := lines; fault := None |}) empty_store) in
  planning_updates s' = [] -> ~ In (Say Thinking) (calls s').








(** The status message a [data: ] line adds on the secondary channel, if
    any (lines 111-120 and 236-248): the payload is decoded to a dict with no
    [object], a truthy [status] other than the stop marker and a truthy
    [status_message]. *)
Definition secondary_status (py : Python) (line : string) : option json :=
  if Text.startswith line "data: "
     && negb (String.eqb (payload line) "[DONE]")
     && negb (Text.startswith (payload line) "[")
  then
    match json_loads py (payload line) with
    | Some (JObj members) =>
        match lookup "object" members with
        | None | Some JNull =>
            match lookup "status" members, lookup "status_message" members with
            | Some status, Some status_msg =>
                if truthy status
                   && negb (mem status [JStr "REASONING_AGENT_STOP"])
                   && truthy status_msg
                then Some status_msg
                else None
            | _, _ => None
            end
        | Some _ => None
        end
    | _ => None
    end
  else None.





(** the attributes lines 331-334 assign are the same in both stores *)
Definition same_summary_attributes (s s' : store) : Prop :=
  planning_steps s' = planning_steps s
  /\ sql_queries s' = sql_queries s
  /\ verification_info s' = verification_info s
  /\ verified_query_used s' = verified_query_used s.



End Props.

(* ================================================================== *)
(** ** Frames: what the loop makes of a line, by kind of line *)

Module Frames.

Import Py Chat Props.
Local Open Scope string_scope.

(** the value the loop decodes a line to (lines 111-120): the line is a
    [data: ] line, its payload is neither the end marker nor bracketed, and
    [json.loads] accepts it *)
Definition frame_of (py : Python) (line : string) : option json :=
  if Text.startswith line "data: "
     && negb (String.eqb (payload line) "[DONE]")
     && negb (Text.startswith (payload line) "[")
  then json_loads py (payload line)
  else None.

(** the message a line carries on the primary channel (lines 124-125): its
    frame is a dict with a [message] *)
Definition primary_status (py : Python) (line : string) : option json :=
  match frame_of py line with
  | Some (JObj members) => lookup "message" members
  | _ => None
  end.


(** the content item is of type [text] and carries the string [t] *)
Definition carries_text (py : Python) (item : json) (t : string) : Prop :=
  get py item "type" = Ok (JStr "text")
  /\ get_default py item "text" (JStr "") = Ok (JStr t).

(** the updates of the message that status messages of the primary channel
    make, one each *)
Definition latest_steps (channel ts : string) (msgs : list json) : list call :=
  map (fun m => ChatUpdate (LatestStep channel ts m)) msgs.



(** [n] blanks *)
Fixpoint blanks (n : nat) : string :=
  match n with
  | O => EmptyString
  | S n' => String " " (blanks n')
  end.

(** the turn has no message to refresh *)
Definition no_message (s : store) : Prop := nonempty (planning_message_ts s) = None.

(** the turn has a message to update, on a known channel, and reads frames
    under [event: response.status] *)
Definition under_status (channel ts : string) (s : store) : Prop :=
  nonempty (planning_message_ts s) = Some ts
  /\ nonempty (planning_channel s) = Some channel
  /\ current_event s = Some "response.status".

(** no call was made and the message of the turn is the same *)
Definition quiet (s s' : store) : Prop :=
  calls s' = calls s /\ planning_message_ts s' = planning_message_ts s.

(** the planning steps recorded are the same *)
Definition same_steps (s s' : store) : Prop :=
  planning_updates s' = planning_updates s.

(** a statement that, started in a store that satisfies [P], relates the
    store it starts in to the one it ends in by [R], whether it returns or
    raises *)
Definition guarded (P : store -> Prop) (R : store -> store -> Prop)
    {A : Type} (c : M A) : Prop :=
  forall s, P s -> R s (snd (c s)).

(** the turn knows no channel *)
Definition no_channel (s : store) : Prop := nonempty (planning_channel s) = None.

(** only posts were made and the channel of the turn is the same *)
Definition posts_only (s s' : store) : Prop :=
  appends is_say s s' /\ planning_channel s' = planning_channel s.


(** the event context is the same *)
Definition same_event (s s' : store) : Prop := current_event s' = current_event s.

End Frames.

(* ================================================================== *)
(** * Properties *)

Import Py Chat Props.
Local Open Scope string_scope.

(** ** Statements and the relations they preserve *)

Section Preservation.

Variable R : store -> store -> Prop.
Hypothesis R_refl : forall s, R s s.
Hypothesis R_trans : forall a b c, R a b -> R b c -> R a c.

Lemma preserves_ret A (a : A) : preserves R (ret a).
Proof. intros s; apply R_refl. Qed.

Lemma preserves_raise A (e : exn) : preserves R (@raise A e).
Proof. intros s; apply R_refl. Qed.

Lemma preserves_lift A (r : result A) : preserves R (lift r).
Proof. intros s; apply R_refl. Qed.

Lemma preserves_get_store : preserves R get_store.
Proof. intros s; apply R_refl. Qed.

Lemma preserves_modify (f : store -> store) :
  (forall s, R s (f s)) -> preserves R (modify f).
Proof. intros H s; apply H. Qed.

Lemma preserves_bind A B (c : M A) (k : A -> M B) :
  preserves R c -> (forall a, preserves R (k a)) -> preserves R (bind c k).
Proof.
  intros Hc Hk s. unfold bind.
  specialize (Hc s). destruct (c s) as [[a | e] s1]; simpl in *.
  - eapply R_trans; [exact Hc | apply Hk].
  - exact Hc.
Qed.

Lemma preserves_try_except A (c : M A) handles (h : exn -> M A) :
  preserves R c -> (forall e, preserves R (h e)) -> preserves R (try_except c handles h).
Proof.
  intros Hc Hh s. unfold try_except.
  specialize (Hc s). destruct (c s) as [[a | e] s1]; simpl in *.
  - exact Hc.
  - destruct (handles e); simpl.
    + eapply R_trans; [exact Hc | apply Hh].
    + exact Hc.
Qed.

Lemma preserves_when (b : bool) (c : M unit) :
  preserves R c -> preserves R (when b c).
Proof. intros Hc. destruct b; simpl; [exact Hc | apply preserves_ret]. Qed.

Lemma preserves_for_each A (body : A -> M unit) (l : list A) :
  (forall a, preserves R (body a)) -> preserves R (for_each body l).
Proof.
  intros Hb. induction l as [| x l IH]; simpl.
  - apply preserves_ret.
  - apply preserves_bind; [apply Hb | intros _; exact IH].
Qed.

End Preservation.

(** one step of a proof of [preserves R c] by the shape of [c]; [refl] and
    [trans] are the proofs that [R] is a preorder, [leaf] closes the
    statements that touch the store *)
Ltac frame_step refl trans leaf :=
  lazymatch goal with
  | |- preserves _ (ret _) => apply (@preserves_ret _ refl)
  | |- preserves _ pass => apply (@preserves_ret _ refl)
  | |- preserves _ (raise _) => apply (@preserves_raise _ refl)
  | |- preserves _ (lift _) => apply (@preserves_lift _ refl)
  | |- preserves _ get_store => apply (@preserves_get_store _ refl)
  | |- preserves _ (bind _ _) => apply (@preserves_bind _ trans); [| intros ?]
  | |- preserves _ (try_except _ _ _) => apply (@preserves_try_except _ trans); [| intros ?]
  | |- preserves _ (when _ _) => apply (@preserves_when _ refl)
  | |- preserves _ (for_each _ _) => apply (@preserves_for_each _ refl trans); intros ?
  | |- preserves _ (match ?x with _ => _ end) => destruct x
  | |- preserves _ (modify _) => apply (@preserves_modify _); intros ?; leaf
  | |- _ => leaf
  end.

Ltac frame refl trans leaf := repeat frame_step refl trans leaf.

Lemma same_lines_refl s : same_lines s s.
Proof. split; reflexivity. Qed.

Lemma same_lines_trans a b c : same_lines a b -> same_lines b c -> same_lines a c.
Proof. intros [H1 H2] [H3 H4]; split; congruence. Qed.

Lemma same_lines_say say p : preserves same_lines (call_slack_say say p).
Proof. intros s; split; reflexivity. Qed.

Lemma same_lines_update app u : preserves same_lines (call_chat_update app u).
Proof. intros s; split; reflexivity. Qed.

Ltac same_lines_leaf :=
  first [ apply same_lines_say | apply same_lines_update
        | split; reflexivity ].

Section Lines.
Variable py : Python.
Variable self : CortexChat.

Lemma same_lines_on_frame j : preserves same_lines (on_frame py self j).
Proof.
  unfold on_frame, on_response_status, on_message_delta, on_untyped_object,
    refresh_planning_message.
  frame same_lines_refl same_lines_trans same_lines_leaf.
  all: unfold on_content_item.
  all: frame same_lines_refl same_lines_trans same_lines_leaf.
Qed.

Lemma data_line_shape line :
  Text.startswith line "data: " = true ->
  String.eqb line "" = false /\ Text.startswith line "event: " = false.
Proof.
  destruct line as [| c line]; simpl; [discriminate |].
  intros H. apply andb_true_iff in H. destruct H as [H _].
  apply Ascii.eqb_eq in H. subst c. split; reflexivity.
Qed.

(** the loop body on a [data: ] line, branch by branch *)
Lemma on_line_data line s :
  Text.startswith line "data: " = true ->
  on_line py self line s =
    if String.eqb (payload line) "[DONE]" then (Ok Break, collected line s)
    else if negb (Text.startswith (payload line) "[") then
      match json_loads py (payload line) with
      | Some json_data =>
          (try_except (on_frame py self json_data) json_decode_error (fun _ => pass) ;;
           ret Next) (collected line s)
      | None => (Ok Next, collected line s)
      end
    else (Ok Next, collected line s).
Proof.
  intros H. destruct (data_line_shape _ H) as [Hne Hev].
  unfold on_line. cbn [bind modify]. rewrite Hne. cbn [bind modify].
  rewrite Hev, H. fold (payload line).
  destruct (String.eqb (payload line) "[DONE]"); [reflexivity |].
  destruct (negb (Text.startswith (payload line) "[")); [| reflexivity].
  destruct (json_loads py (payload line)); reflexivity.
Qed.

Lemma on_line_done line s :
  done_line line = true -> on_line py self line s = (Ok Break, collected line s).
Proof.
  unfold done_line. intros H. apply andb_true_iff in H. destruct H as [H1 H2].
  rewrite on_line_data by exact H1. rewrite H2. reflexivity.
Qed.

Lemma for_lines_done_prefix pre d post fault s :
  done_line d = true ->
  for_lines py self (pre ++ d :: post) fault s = for_lines py self (pre ++ [d]) None s.
Proof.
  intros Hd. revert s. induction pre as [| l pre IH]; intros s; simpl.
  - unfold bind. rewrite on_line_done by exact Hd. reflexivity.
  - unfold bind. destruct (on_line py self l s) as [[[|] | e] s1]; auto.
Qed.

(** every iteration counts its line *)
Lemma on_line_counts line s :
  line_count (snd (on_line py self line s)) = line_count s + 1.
Proof.
  unfold on_line. cbn [bind modify].
  destruct (String.eqb line ""); [reflexivity |]. cbn [bind modify].
  destruct (Text.startswith line "event: "); [reflexivity |].
  destruct (Text.startswith line "data: "); [| reflexivity].
  destruct (String.eqb _ "[DONE]"); [reflexivity |].
  destruct (negb _); [| reflexivity].
  destruct (json_loads py _) as [j |]; [| reflexivity].
  pose proof (@preserves_try_except _ same_lines_trans _
                _ json_decode_error (fun _ => pass)
                (same_lines_on_frame j)
                (fun _ => @preserves_ret _ same_lines_refl _ tt)) as H.
  unfold bind.
  match goal with |- context [try_except ?c ?h ?k ?s0] =>
    specialize (H s0); destruct (try_except c h k s0) as [[[] | e] s1] end;
  simpl in *; destruct H as [H _]; rewrite H; reflexivity.
Qed.

(** only a [data: [DONE]] line breaks out of the loop *)
Lemma on_line_break line s s' :
  on_line py self line s = (Ok Break, s') -> done_line line = true.
Proof.
  unfold on_line, done_line. cbn [bind modify].
  destruct (String.eqb line ""); [discriminate |]. cbn [bind modify].
  destruct (Text.startswith line "event: "); [discriminate |].
  destruct (Text.startswith line "data: "); [| discriminate].
  fold (payload line).
  destruct (String.eqb (payload line) "[DONE]"); [reflexivity |].
  destruct (negb _); [| discriminate].
  destruct (json_loads py _) as [j |]; [| discriminate].
  unfold bind. destruct (try_except _ _ _ _) as [[[] | e] s1]; discriminate.
Qed.

Lemma for_lines_counts pre d s s' :
  forallb (fun l => negb (done_line l)) pre = true ->
  done_line d = true ->
  for_lines py self (pre ++ [d]) None s = (Ok tt, s') ->
  line_count s' = line_count s + length pre + 1.
Proof.
  intros Hpre Hd. revert s. induction pre as [| l pre IH]; intros s; simpl.
  - unfold bind. rewrite on_line_done by exact Hd. simpl.
    intros H. injection H as <-. simpl. lia.
  - simpl in Hpre. apply andb_true_iff in Hpre. destruct Hpre as [Hl Hpre].
    unfold bind. pose proof (on_line_counts l s) as Hc.
    destruct (on_line py self l s) as [[[|] | e] s1] eqn:E; simpl in Hc.
    + intros H. apply IH in H; [lia | exact Hpre].
    + apply on_line_break in E. rewrite E in Hl. discriminate.
    + discriminate.
Qed.

End Lines.

Lemma bind_run A B (c : M A) (k : A -> M B) s :
  bind c k s =
  match c s with
  | (Ok a, s') => k a s'
  | (Raise e, s') => (Raise e, s')
  end.
Proof. reflexivity. Qed.

(** every iteration collects its line, unless the line is empty *)
Lemma on_line_collects py self line s :
  response_lines (snd (on_line py self line s)) =
  (response_lines s ++ (if String.eqb line "" then [] else [line]))%list.
Proof.
  unfold on_line. cbn [bind modify].
  destruct (String.eqb line ""); [simpl; rewrite app_nil_r; reflexivity |].
  cbn [bind modify].
  destruct (Text.startswith line "event: "); [reflexivity |].
  destruct (Text.startswith line "data: "); [| reflexivity].
  destruct (String.eqb _ "[DONE]"); [reflexivity |].
  destruct (negb _); [| reflexivity].
  destruct (json_loads py _) as [j |]; [| reflexivity].
  pose proof (@preserves_try_except _ same_lines_trans _
                _ json_decode_error (fun _ => pass)
                (same_lines_on_frame py self j)
                (fun _ => @preserves_ret _ same_lines_refl _ tt)) as H.
  unfold bind.
  match goal with |- context [try_except ?c ?h ?k ?s0] =>
    specialize (H s0); destruct (try_except c h k s0) as [[[] | e] s1] end;
  simpl in *; destruct H as [_ H]; rewrite H; reflexivity.
Qed.

Lemma for_lines_collects py self pre d s s' :
  forallb (fun l => negb (done_line l)) pre = true ->
  done_line d = true ->
  for_lines py self (pre ++ [d])%list None s = (Ok tt, s') ->
  response_lines s' =
  (response_lines s ++ filter (fun l => negb (String.eqb l "")) (pre ++ [d]))%list.
Proof.
  intros Hpre Hd. revert s. induction pre as [| l pre IH]; intros s; simpl.
  - unfold bind. rewrite on_line_done by exact Hd. simpl.
    intros H. injection H as <-.
    unfold done_line in Hd. apply andb_true_iff in Hd. destruct Hd as [Hd _].
    destruct (data_line_shape _ Hd) as [-> _]. reflexivity.
  - simpl in Hpre. apply andb_true_iff in Hpre. destruct Hpre as [Hl Hpre].
    unfold bind. pose proof (on_line_collects py self l s) as Hc.
    destruct (on_line py self l s) as [[[|] | e] s1] eqn:E; simpl in Hc.
    + intros H. apply IH in H; [| exact Hpre]. rewrite H, Hc.
      rewrite <- app_assoc. destruct (String.eqb l ""); reflexivity.
    + apply on_line_break in E. rewrite E in Hl. discriminate.
    + discriminate.
Qed.

(** C5. Every line sequence that contains a [data: [DONE]] line is read up
    to that line and no further: the loop, and with it the whole call, ends
    as it does on the sequence cut right after that line, whatever follows
    and whatever the stream would do next.  When the line is the first of
    its kind and the loop gets to it, the loop has counted exactly the lines
    up to and including it and collected exactly the non-empty ones among
    them. *)
Theorem C5_loop_stops_at_done py self pre d post fault s :
  done_line d = true ->
  for_lines py self (pre ++ d :: post)%list fault s
    = for_lines py self (pre ++ [d])%list None s
  /\ chat py self (Ok {| iter_lines := (pre ++ d :: post)%list; fault := fault |}) s
     = chat py self (Ok {| iter_lines := (pre ++ [d])%list; fault := None |}) s
  /\ (forallb (fun l => negb (done_line l)) pre = true ->
      forall s', for_lines py self (pre ++ d :: post)%list fault s = (Ok tt, s') ->
      line_count s' = line_count s + length pre + 1
      /\ response_lines s' =
         (response_lines s
            ++ filter (fun l => negb (String.eqb l "")) (pre ++ [d]))%list).
Proof.
  intros Hd. split; [| split].
  - apply for_lines_done_prefix; exact Hd.
  - unfold chat, _retrieve_response, try_except, try_block. cbn [bind lift iter_lines Chat.fault].
    rewrite !bind_run.
    destruct (start_turn self s) as [[[] | e] s1]; [| reflexivity].
    rewrite !bind_run.
    rewrite (for_lines_done_prefix py self pre d post fault s1 Hd). reflexivity.
  - intros Hpre s' H. rewrite (for_lines_done_prefix py self pre d post fault s Hd) in H.
    split.
    + eapply for_lines_counts; eauto.
    + eapply for_lines_collects; eauto.
Qed.

Lemma C5_witness :
  done_line Samples.done = true
  /\ (for_lines Samples.python (Samples.chat_with (Some Samples.say_ok) (Some Samples.app_ok))
        ([Samples.status_event_line; Samples.searching_line]
           ++ Samples.done :: [Samples.running_line])%list
        (Some Samples.timeout) empty_store
      = for_lines Samples.python (Samples.chat_with (Some Samples.say_ok) (Some Samples.app_ok))
          ([Samples.status_event_line; Samples.searching_line]
             ++ [Samples.done])%list
          None empty_store).
Proof.
  split; [reflexivity |].
  apply (C5_loop_stops_at_done Samples.python
           (Samples.chat_with (Some Samples.say_ok) (Some Samples.app_ok))
           [Samples.status_event_line; Samples.searching_line]
           Samples.done [Samples.running_line]
           (Some Samples.timeout) empty_store).
  reflexivity.
Defined.

(** C6. A [data: ] frame, other than the end marker, whose payload
    [json.loads] rejects raises nothing:
    the iteration ends normally, the store is the one before the line except
    that the line has been counted and collected (planning steps, tools,
    text, event context, message handle and Slack calls are untouched), and
    the loop goes on with the next line. *)
Theorem C6_undecodable_frame_is_dropped py self line s :
  Text.startswith line "data: " = true ->
  String.eqb (payload line) "[DONE]" = false ->
  json_loads py (payload line) = None ->
  on_line py self line s = (Ok Next, collected line s)
  /\ planning_updates (collected line s) = planning_updates s
  /\ tools_used (collected line s) = tools_used s
  /\ current_thinking (collected line s) = current_thinking s
  /\ current_event (collected line s) = current_event s
  /\ planning_message_ts (collected line s) = planning_message_ts s
  /\ calls (collected line s) = calls s
  /\ (forall rest fault,
        for_lines py self (line :: rest) fault s
        = for_lines py self rest fault (collected line s)).
Proof.
  intros Hdata Hdone Hload.
  assert (E : on_line py self line s = (Ok Next, collected line s)).
  { rewrite on_line_data by exact Hdata. rewrite Hdone, Hload.
    destruct (negb _); reflexivity. }
  repeat split; try reflexivity; try exact E.
  intros rest fault. simpl. unfold bind. rewrite E. reflexivity.
Qed.

Lemma C6_witness :
  Text.startswith Samples.truncated_line "data: " = true
  /\ on_line Samples.python (Samples.chat_with (Some Samples.say_ok) (Some Samples.app_ok))
       Samples.truncated_line empty_store
     = (Ok Next, collected Samples.truncated_line empty_store).
Proof.
  split; [reflexivity |].
  apply (C6_undecodable_frame_is_dropped Samples.python
           (Samples.chat_with (Some Samples.say_ok) (Some Samples.app_ok))
           Samples.truncated_line empty_store);
    reflexivity.
Defined.

(** C10. A [data: ] line whose payload starts with an opening bracket and
    is not the end marker is skipped: [json.loads] is not consulted (the
    outcome is the same under every interpreter, so also when the payload is
    a valid JSON array), nothing is raised and nothing but the line
    bookkeeping changes. *)
Theorem C10_bracket_payload_is_skipped py self line s :
  Text.startswith line "data: " = true ->
  Text.startswith (payload line) "[" = true ->
  String.eqb (payload line) "[DONE]" = false ->
  on_line py self line s = (Ok Next, collected line s)
  /\ (forall py', on_line py' self line s = on_line py self line s)
  /\ planning_updates (collected line s) = planning_updates s
  /\ tools_used (collected line s) = tools_used s
  /\ current_thinking (collected line s) = current_thinking s
  /\ current_event (collected line s) = current_event s
  /\ planning_message_ts (collected line s) = planning_message_ts s
  /\ calls (collected line s) = calls s.
Proof.
  intros Hdata Hbr Hdone.
  assert (E : forall p, on_line p self line s = (Ok Next, collected line s)).
  { intros p. rewrite on_line_data by exact Hdata. rewrite Hdone, Hbr. reflexivity. }
  repeat split; try reflexivity; try apply E.
  intros py'. rewrite !E. reflexivity.
Qed.

Lemma C10_witness :
  json_loads Samples.python (payload Samples.array_line) = Some Samples.array
  /\ on_line Samples.python (Samples.chat_with (Some Samples.say_ok) (Some Samples.app_ok))
       Samples.array_line empty_store
     = (Ok Next, collected Samples.array_line empty_store).
Proof.
  split; [reflexivity |].
  apply (C10_bracket_payload_is_skipped Samples.python
           (Samples.chat_with (Some Samples.say_ok) (Some Samples.app_ok))
           Samples.array_line empty_store);
    reflexivity.
Defined.


(** ** Calls are only ever appended *)

Lemma appends_refl keep s : appends keep s s.
Proof. exists []. split; [symmetry; apply app_nil_r | reflexivity]. Qed.

Lemma appends_trans keep a b c :
  appends keep a b -> appends keep b c -> appends keep a c.
Proof.
  intros [x [Hx Kx]] [y [Hy Ky]]. exists (x ++ y)%list. split.
  - rewrite Hy, Hx. symmetry. apply app_assoc.
  - rewrite forallb_app, Kx, Ky. reflexivity.
Qed.

Lemma appends_same keep s s' : calls s' = calls s -> appends keep s s'.
Proof.
  intros H. exists []. split; [rewrite H; symmetry; apply app_nil_r | reflexivity].
Qed.

Lemma appends_say keep say p :
  keep (Say p) = true -> preserves (appends keep) (call_slack_say say p).
Proof. intros H s. exists [Say p]. simpl. rewrite H. split; reflexivity. Qed.

Lemma appends_update keep app u :
  keep (ChatUpdate u) = true -> preserves (appends keep) (call_chat_update app u).
Proof. intros H s. exists [ChatUpdate u]. simpl. rewrite H. split; reflexivity. Qed.

Lemma preserves_for_lines (R : store -> store -> Prop) py self lines fault :
  (forall s, R s s) -> (forall a b c, R a b -> R b c -> R a c) ->
  (forall line, preserves R (on_line py self line)) ->
  preserves R (for_lines py self lines fault).
Proof.
  intros refl trans Hline. induction lines as [| l lines IH]; simpl.
  - destruct fault; [apply (@preserves_raise _ refl) | apply (@preserves_ret _ refl)].
  - apply (@preserves_bind _ trans); [apply Hline |].
    intros [|]; [exact IH | apply (@preserves_ret _ refl)].
Qed.

Section Appends.

Variable py : Python.
Variable self : CortexChat.
Variable keep : call -> bool.
Hypothesis keep_updates : forall u, keep (ChatUpdate u) = true.
Hypothesis keep_progress : forall l, keep (Say (ProgressUpdate l)) = true.
Hypothesis keep_steps : forall l, keep (Say (CompletedSteps l)) = true.
Hypothesis keep_count : forall n, keep (Say (CompletedCount n)) = true.

Ltac appends_leaf :=
  first [ apply appends_say; solve [auto]
        | apply appends_update; solve [auto]
        | apply appends_same; reflexivity ].

Ltac appends_frame :=
  frame (appends_refl keep) (@appends_trans keep) appends_leaf.

Lemma appends_on_line line : preserves (appends keep) (on_line py self line).
Proof.
  unfold on_line, on_frame, on_response_status, on_message_delta,
    on_untyped_object, refresh_planning_message.
  appends_frame.
  all: unfold on_content_item.
  all: appends_frame.
Qed.

Lemma appends_finish summary :
  preserves (appends keep) (finish_planning_message py self summary).
Proof. unfold finish_planning_message. appends_frame. Qed.

Lemma appends_finish_turn : preserves (appends keep) (finish_turn py self).
Proof.
  unfold finish_turn. pose proof appends_finish as F. appends_frame. apply F.
Qed.

(** lines 88-444: the [try] block after the first message *)
Lemma appends_after_start response :
  preserves (appends keep)
    (for_lines py self (iter_lines response) (fault response) ;;
     finish_turn py self).
Proof.
  apply (@preserves_bind _ (@appends_trans keep)).
  - apply preserves_for_lines;
      [apply appends_refl | apply appends_trans | apply appends_on_line].
  - intros _. apply appends_finish_turn.
Qed.

End Appends.

Lemma appends_start_turn self keep :
  keep (Say Thinking) = true -> preserves (appends keep) (start_turn self).
Proof.
  intros H. unfold start_turn.
  frame (appends_refl keep) (@appends_trans keep)
    ltac:(first [ apply appends_say; exact H | apply appends_same; reflexivity ]).
Qed.

Lemma appends_handle_error self keep error_msg slack_title :
  (forall t m, keep (Say (ErrorMessage t m)) = true) ->
  preserves (appends keep) (_handle_error self error_msg slack_title).
Proof.
  intros H. unfold _handle_error.
  frame (appends_refl keep) (@appends_trans keep)
    ltac:(first [ apply appends_say; apply H | apply appends_same; reflexivity ]).
Qed.

Lemma except_clauses_handle_error self e :
  except_clauses self e = _handle_error self (error_msg_of e) (slack_title_of e).
Proof.
  unfold except_clauses, error_msg_of, slack_title_of.
  destruct (exn_class_of e); reflexivity.
Qed.

(** a request that fails raises out of the [try] block before anything else
    is done *)
Lemma try_block_request_failure py self e s :
  try_block py self (Raise e) s = (Raise e, s).
Proof. reflexivity. Qed.

(** so does a stream that fails while it is read, unless the loop was left
    before *)
Lemma for_lines_fault py self e s :
  for_lines py self [] (Some e) s = (Raise e, s).
Proof. reflexivity. Qed.

Lemma appends_try_block py self transport :
  preserves (appends not_error_message) (try_block py self transport).
Proof.
  unfold try_block.
  apply (@preserves_bind _ (@appends_trans not_error_message));
    [apply (@preserves_lift _ (appends_refl not_error_message)) |].
  intros response.
  apply (@preserves_bind _ (@appends_trans not_error_message));
    [apply appends_start_turn; reflexivity |].
  intros _. apply appends_after_start; intros; reflexivity.
Qed.

(** C1 (amended). Whenever an exception leaves the [try] block -- the
    request timed out, failed, or anything else was raised -- the method
    goes through [_handle_error]: no error message was posted before; with no
    post function configured the call returns the summary whose text starts
    with [Error:] and whose [sql_queries] and [citations] are empty; with a
    post function configured exactly one error message is posted, and the
    call returns that summary if the post returns and raises the exception
    of the post if the post raises. *)
Theorem C1_error_path py self transport s e s1 :
  try_block py self transport s = (Raise e, s1) ->
  let error_msg := error_msg_of e in
  let notice := ErrorMessage (slack_title_of e) error_msg in
  Text.startswith ("Error: " ++ error_msg) "Error:" = true
  /\ error_summary error_msg =
       JObj [("text", JStr ("Error: " ++ error_msg));
             ("sql_queries", JArr []); ("citations", JArr [])]
  /\ appends not_error_message s s1
  /\ match slack_say self with
     | None => chat py self transport s = (Ok (error_summary error_msg), s1)
     | Some say =>
         chat py self transport s =
         (match say (length (filter is_say (calls s1))) notice with
          | Ok _ => Ok (error_summary error_msg)
          | Raise e' => Raise e'
          end,
          set_calls (calls s1 ++ [Say notice]) s1)
     end.
Proof.
  intros H error_msg notice.
  split; [reflexivity | split; [reflexivity | split]].
  - pose proof (appends_try_block py self transport s) as A.
    rewrite H in A. exact A.
  - unfold chat, _retrieve_response, try_except. rewrite H. simpl.
    rewrite except_clauses_handle_error. unfold _handle_error.
    fold error_msg. fold notice.
    destruct (slack_say self) as [say |]; [| reflexivity].
    unfold bind, call_slack_say, pass, ret.
    destruct (say _ _); reflexivity.
Qed.

Lemma C1_witness :
  try_block Samples.python (Samples.chat_with (Some Samples.say_ok) None)
    (Raise Samples.timeout) empty_store = (Raise Samples.timeout, empty_store)
  /\ chat Samples.python (Samples.chat_with (Some Samples.say_ok) None)
       (Raise Samples.timeout) empty_store
     = (Ok (error_summary "Request took longer than 120 seconds"),
        set_calls [Say (ErrorMessage "Request timeout"
                          "Request took longer than 120 seconds")] empty_store).
Proof.
  split; [reflexivity |].
  exact (proj2 (proj2 (proj2
    (@C1_error_path Samples.python (Samples.chat_with (Some Samples.say_ok) None)
       (Raise Samples.timeout) empty_store Samples.timeout empty_store eq_refl)))).
Defined.

(** C1 as stated fails: with a post function that raises, a timed-out
    request makes the call raise instead of returning a summary. *)
Lemma C1_counterexample :
  ~ returns_error_summary Samples.python
      (Samples.chat_with (Some Samples.say_fails) None) Samples.timeout.
Proof. intros [error_msg H]. vm_compute in H. discriminate H. Qed.

Lemma start_turn_calls self say s :
  slack_say self = Some say ->
  calls (snd (start_turn self s)) = (calls s ++ [Say Thinking])%list.
Proof.
  intros H. unfold start_turn. rewrite H.
  unfold bind, modify, call_slack_say, pass, ret. simpl.
  destruct (say _ Thinking) as [r | e]; simpl; [| reflexivity].
  destruct (nonempty r); reflexivity.
Qed.

Lemma appends_chat_after_start py self response s :
  appends not_thinking (snd (start_turn self s))
    (snd (chat py self (Ok response) s)).
Proof.
  assert (X : forall e, preserves (appends not_thinking) (except_clauses self e)).
  { intros e. rewrite except_clauses_handle_error.
    apply appends_handle_error. intros; reflexivity. }
  unfold chat, _retrieve_response, try_except, try_block. cbn [bind lift].
  rewrite bind_run.
  destruct (start_turn self s) as [[[] | e] s1]; simpl.
  - match goal with |- context [bind ?c ?k s1] =>
      pose proof (@appends_after_start py self not_thinking
                    (fun _ => eq_refl) (fun _ => eq_refl)
                    (fun _ => eq_refl) (fun _ => eq_refl) response s1) as A;
      change (appends not_thinking s1 (snd (bind c k s1))) in A;
      destruct (bind c k s1) as [[a | e] s2]
    end; simpl in *.
    + exact A.
    + eapply appends_trans; [exact A | apply X].
  - apply X.
Qed.

(** C4 (amended). With a post function configured, the [Thinking] message
    is posted eagerly: it is the first thing the method does once the request
    has succeeded, before a single line of the stream is read and whether or
    not a status event ever arrives, and no later step of the turn posts it
    again. *)
Theorem C4_thinking_posted_eagerly py self say response s :
  slack_say self = Some say ->
  calls (snd (start_turn self s)) = (calls s ++ [Say Thinking])%list
  /\ exists rest,
       calls (snd (chat py self (Ok response) s))
         = (calls s ++ Say Thinking :: rest)%list
       /\ forallb not_thinking rest = true.
Proof.
  intros H. pose proof (@start_turn_calls self say s H) as E. split; [exact E |].
  destruct (appends_chat_after_start py self response s) as [rest [R K]].
  exists rest. split; [| exact K].
  rewrite R, E, <- app_assoc. reflexivity.
Qed.

Lemma C4_witness :
  slack_say (Samples.chat_with (Some Samples.say_ok) (Some Samples.app_ok))
    = Some Samples.say_ok
  /\ calls (snd (start_turn (Samples.chat_with (Some Samples.say_ok) (Some Samples.app_ok))
                   empty_store))
     = [Say Thinking].
Proof.
  split; [reflexivity |].
  exact (proj1 (@C4_thinking_posted_eagerly Samples.python
                  (Samples.chat_with (Some Samples.say_ok) (Some Samples.app_ok))
                  Samples.say_ok {| iter_lines := []; fault := None |}
                  empty_store eq_refl)).
Defined.

(** C4 as stated fails: on a stream with no line at all, so with no status
    event, the [Thinking] message has been posted. *)
Lemma C4_counterexample :
  ~ created_lazily Samples.python
      (Samples.chat_with (Some Samples.say_ok) (Some Samples.app_ok)) [].
Proof.
  unfold created_lazily. intros H. apply H; [reflexivity |].
  vm_compute. left. reflexivity.
Qed.

(** ** Tool names *)
























(** ** The notifier *)


Lemma filter_update_say l p :
  filter is_chat_update (l ++ [Say p]) = filter is_chat_update l.
Proof. rewrite filter_app. simpl. apply app_nil_r. Qed.


Lemma latest_of_last l v : latest_of (l ++ [v]) = v.
Proof. unfold latest_of. apply last_last. Qed.



(** lines 165-236 on a dict without [object], outside any event context *)
Lemma on_frame_untyped py self members s :
  current_event s = None ->
  (lookup "object" members = None \/ lookup "object" members = Some JNull) ->
  on_frame py self (JObj members) s = on_untyped_object py self (JObj members) s.
Proof.
  intros Hev Hobj. unfold on_frame, bind, get_store, lift. rewrite Hev.
  cbn [event_is get]. destruct Hobj as [-> | ->]; reflexivity.
Qed.


Lemma appends_say_updates s s' :
  appends is_say s s' ->
  filter is_chat_update (calls s') = filter is_chat_update (calls s).
Proof.
  intros [added [H K]]. rewrite H, filter_app.
  assert (E : filter is_chat_update added = []).
  { clear H. induction added as [| c added IH]; [reflexivity |].
    simpl in K. apply andb_true_iff in K. destruct K as [Kc K].
    destruct c; [| discriminate]. simpl. apply IH. exact K. }
  rewrite E. apply app_nil_r.
Qed.

Section Notifier.

Variable py : Python.
Variable self : CortexChat.
Variable say : say_function.
Variable app : SlackApp.
Variables channel ts : string.
Hypothesis has_say : slack_say self = Some say.
Hypothesis has_app : slack_app self = Some app.
Hypothesis has_channel : nonempty (channel_id app) = Some channel.
Hypothesis progress_posts_return :
  forall n latest, exists r, say n (ProgressUpdate latest) = Ok r.








End Notifier.





(** lines 124-161 when the update of the message is rejected *)
Lemma primary_failure py self app channel ts json_data status_msg s e :
  contains py "message" json_data = Ok true ->
  getitem py json_data "message" = Ok status_msg ->
  slack_app self = Some app ->
  nonempty (planning_message_ts s) = Some ts ->
  nonempty (planning_channel s) = Some channel ->
  chat_update app (length (filter is_chat_update (calls s)))
    (LatestStep channel ts status_msg) = Raise e ->
  on_response_status py self json_data s =
  (Ok tt,
   set_calls (calls s ++ [ChatUpdate (LatestStep channel ts status_msg)])
     (set_planning_updates (planning_updates s ++ [status_msg]) s)).
Proof.
  intros Hin Hget Happ Hts Hch Hfail.
  unfold on_response_status, bind, lift. rewrite Hin. unfold when.
  rewrite Hget. unfold modify, get_store. rewrite Happ.
  cbn [planning_message_ts planning_channel set_planning_updates].
  rewrite Hts, Hch. unfold try_except, call_chat_update.
  cbn [calls planning_updates set_planning_updates].
  rewrite latest_of_last, Hfail. reflexivity.
Qed.




(** and an exception raised by the fallback post reaches the caller when
    the error post raises too *)
Example fallback_post_raises :
  fst (chat Samples.python
         (Samples.chat_with (Some (fun n p =>
                                     match p with
                                     | Thinking => Ok (Some "1700000000.000100")
                                     | _ => Raise (Exn OtherException "channel_not_found")
                                     end))
            (Some Samples.app_first_update_fails))
         (Samples.stream [Samples.running_line; Samples.running_line])
         empty_store)
  = Raise (Exn OtherException "channel_not_found").
Proof. reflexivity. Qed.

(** ** Verification fields *)

Unset Implicit Arguments.


Example verified_result_changes_nothing :
  on_content_item Samples.python Samples.verified_result_item empty_store
  = (Ok tt, empty_store).
Proof. reflexivity. Qed.

Module AccumulatorFacts.

Import SpecAccumulator.

Lemma lookup_assign_same k v info : lookup k (assign k v info) = Some v.
Proof.
  induction info as [| [k' v'] info IH]; simpl.
  - rewrite String.eqb_refl. reflexivity.
  - destruct (String.eqb k k') eqn:E; simpl.
    + rewrite String.eqb_refl. reflexivity.
    + rewrite E. exact IH.
Qed.

Lemma lookup_assign_other k k' v info :
  String.eqb k k' = false -> lookup k (assign k' v info) = lookup k info.
Proof.
  intros H. induction info as [| [k0 v0] info IH]; simpl.
  - rewrite H. reflexivity.
  - destruct (String.eqb k' k0) eqn:E; simpl.
    + apply String.eqb_eq in E. subst k0. rewrite H. reflexivity.
    + destruct (String.eqb k k0); [reflexivity | exact IH].
Qed.

(** after a merge, a key that was among the bindings has the value of one
    of them, and a key that was not has the value it had *)
Lemma lookup_merge k bindings :
  forall info,
    (forall v, lookup k (merge info bindings) = Some v ->
               In (k, v) bindings \/ lookup k info = Some v)
    /\ ((exists v, In (k, v) bindings) ->
        exists v, lookup k (merge info bindings) = Some v /\ In (k, v) bindings).
Proof.
  induction bindings as [| [k0 v0] rest IH]; intros info; simpl.
  - split; [auto | intros [v []]].
  - destruct (IH (assign k0 v0 info)) as [IH1 IH2]. split.
    + intros v H. destruct (IH1 v H) as [Hin | Hl]; [auto |].
      destruct (String.eqb k k0) eqn:E.
      * apply String.eqb_eq in E. subst k0.
        rewrite lookup_assign_same in Hl. injection Hl as ->. auto.
      * rewrite (lookup_assign_other _ _ _ _ E) in Hl. auto.
    + intros [v [Hv | Hv]].
      * injection Hv as -> ->.
        destruct (lookup k (merge (assign k v info) rest)) as [w |] eqn:L.
        -- exists w. split; [reflexivity |].
           destruct (IH1 w eq_refl) as [Hin | Hl]; [auto |].
           rewrite lookup_assign_same in Hl. injection Hl as ->. auto.
        -- exfalso.
           assert (N : forall bs inf, lookup k inf <> None ->
                                      lookup k (merge inf bs) <> None).
           { induction bs as [| [k1 v1] bs IHb]; intros inf Hn; simpl; [exact Hn |].
             apply IHb. destruct (String.eqb k k1) eqn:E1.
             - apply String.eqb_eq in E1. subst k1.
               rewrite lookup_assign_same. discriminate.
             - rewrite (lookup_assign_other _ _ _ _ E1). exact Hn. }
           apply (N rest (assign k v info)); [| exact L].
           rewrite lookup_assign_same. discriminate.
      * destruct IH2 as [w [Hw Hin]]; [exists v; exact Hv |].
        exists w. auto.
Qed.

Lemma found_spec members k v :
  In (k, v) (found members) <-> In k verification_keys /\ lookup k members = Some v.
Proof.
  unfold found. rewrite in_flat_map. split.
  - intros [k' [Hk H]]. destruct (lookup k' members) as [w |] eqn:L; [| destruct H].
    destruct H as [H | []]. injection H as -> ->. auto.
  - intros [Hk L]. exists k. split; [exact Hk |]. rewrite L. left. reflexivity.
Qed.

Lemma signals_spec payload k v :
  In (k, v) (signals payload) <-> In k verification_keys /\ carries payload k v.
Proof.
  unfold signals, carries. split.
  - destruct payload as [| | | | | members]; try (intros []).
    intros H. apply in_app_or in H. destruct H as [H | H].
    + apply found_spec in H. destruct H as [Hk L].
      split; [exact Hk |]. exists members. auto.
    + destruct (lookup "json" members) as [[| | | | | sub] |] eqn:J;
        try (destruct H).
      apply found_spec in H. destruct H as [Hk L].
      split; [exact Hk |]. exists members. split; [reflexivity |].
      right. exists sub. auto.
  - intros [Hk [members [-> [L | [sub [J L]]]]]]; apply in_or_app.
    + left. apply found_spec. auto.
    + right. rewrite J. apply found_spec. auto.
Qed.

End AccumulatorFacts.

(** The fold of section 4.3 does what the specification says of it: for
    every tool-result payload and every verification-related key it carries,
    the key is in [verification_info] after the fold, bound to a value the
    payload carries for it; [verified_query_used] is true after the fold when
    that signal indicates a verified query, and stays true when it was; a key
    the payload does not signal keeps the binding it had. *)
Lemma spec_fold_merges_verification indicates acc payload k v :
  In k SpecAccumulator.verification_keys ->
  SpecAccumulator.carries payload k v ->
  let acc' := SpecAccumulator.spec_fold_tool_result indicates acc payload in
  (exists v',
      lookup k (SpecAccumulator.verification_info acc') = Some v'
      /\ SpecAccumulator.carries payload k v')
  /\ (indicates k v = true ->
      SpecAccumulator.verified_query_used acc' = true)
  /\ (SpecAccumulator.verified_query_used acc = true ->
      SpecAccumulator.verified_query_used acc' = true)
  /\ (forall k', (forall v', ~ In (k', v') (SpecAccumulator.signals payload)) ->
        lookup k' (SpecAccumulator.verification_info acc')
        = lookup k' (SpecAccumulator.verification_info acc)).
Proof.
  intros Hk Hc acc'.
  assert (Hin : In (k, v) (SpecAccumulator.signals payload))
    by (apply AccumulatorFacts.signals_spec; auto).
  split; [| split; [| split]].
  - destruct (AccumulatorFacts.lookup_merge k
                (SpecAccumulator.signals payload)
                (SpecAccumulator.verification_info acc)) as [_ H].
    destruct H as [v' [L I]]; [exists v; exact Hin |].
    exists v'. split; [exact L |].
    apply AccumulatorFacts.signals_spec in I. apply I.
  - intros Hi. simpl. apply orb_true_iff. right.
    apply existsb_exists. exists (k, v). auto.
  - intros Ht. simpl. rewrite Ht. reflexivity.
  - intros k' Hno. simpl.
    destruct (AccumulatorFacts.lookup_merge k'
                (SpecAccumulator.signals payload)
                (SpecAccumulator.verification_info acc)) as [H _].
    destruct (lookup k' (SpecAccumulator.merge
                           (SpecAccumulator.verification_info acc)
                           (SpecAccumulator.signals payload))) as [w |] eqn:L.
    + destruct (H w eq_refl) as [I | E]; [destruct (Hno w I) | auto].
    + destruct (lookup k' (SpecAccumulator.verification_info acc)) as [w |] eqn:L0;
        [| reflexivity].
      exfalso.
      assert (N : forall bs inf, (forall v', ~ In (k', v') bs) ->
                                 lookup k' (SpecAccumulator.merge inf bs)
                                 = lookup k' inf).
      { induction bs as [| [k1 v1] bs IHb]; intros inf Hn; simpl; [reflexivity |].
        rewrite IHb by (intros v' I; apply (Hn v'); right; exact I).
        apply AccumulatorFacts.lookup_assign_other.
        destruct (String.eqb k' k1) eqn:E1; [| reflexivity].
        apply String.eqb_eq in E1. subst k1. destruct (Hn v1). left. reflexivity. }
      rewrite N in L by exact Hno. congruence.
Qed.

Lemma same_summary_attributes_refl s : same_summary_attributes s s.
Proof. repeat split. Qed.

Lemma same_summary_attributes_trans a b c :
  same_summary_attributes a b -> same_summary_attributes b c ->
  same_summary_attributes a c.
Proof.
  intros [H1 [H2 [H3 H4]]] [K1 [K2 [K3 K4]]]. repeat split; congruence.
Qed.

Lemma same_summary_attributes_finish py self summary :
  preserves same_summary_attributes (finish_planning_message py self summary).
Proof.
  unfold finish_planning_message.
  frame same_summary_attributes_refl same_summary_attributes_trans
    ltac:(first [ intros ?; repeat split | repeat split ]).
Qed.





(* ================================================================== *)
(** * Further properties of the loop, the notifier and the completion *)

Import Frames.

(** ** Further properties of the line loop *)

Lemma frame_of_on_line py self line j s :
  frame_of py line = Some j ->
  on_line py self line s =
  (try_except (on_frame py self j) json_decode_error (fun _ => pass) ;; ret Next)
    (collected line s).
Proof.
  unfold frame_of. intros H.
  destruct (Text.startswith line "data: ") eqn:Hd; [| discriminate].
  destruct (String.eqb (payload line) "[DONE]") eqn:Hdone; [discriminate |].
  destruct (Text.startswith (payload line) "[") eqn:Hbr; [discriminate |].
  cbn [andb negb] in H.
  rewrite (on_line_data py self line s Hd). rewrite Hdone, Hbr, H. reflexivity.
Qed.

(** X1. Under [event: response] every frame is skipped: whatever value the
    payload decodes to, a dict or not, nothing is recorded, no call is made
    and nothing is raised (lines 165-167). *)
Theorem response_event_frames_are_skipped py self line j s :
  frame_of py line = Some j ->
  current_event s = Some "response" ->
  on_line py self line s = (Ok Next, collected line s).
Proof.
  intros Hf Hev. rewrite (frame_of_on_line py self line j s Hf).
  rewrite bind_run. unfold try_except, on_frame, bind, get_store.
  change (current_event (collected line s)) with (current_event s).
  rewrite Hev. reflexivity.
Qed.

Lemma response_event_frames_are_skipped_witness :
  frame_of Samples.python Samples.tool_use_line = Some Samples.tool_use
  /\ on_line Samples.python (Samples.chat_with (Some Samples.say_ok) (Some Samples.app_ok))
       Samples.tool_use_line (set_current_event (Some "response") empty_store)
     = (Ok Next,
        collected Samples.tool_use_line (set_current_event (Some "response") empty_store)).
Proof.
  split; [reflexivity |].
  apply (response_event_frames_are_skipped Samples.python
           (Samples.chat_with (Some Samples.say_ok) (Some Samples.app_ok))
           Samples.tool_use_line Samples.tool_use
           (set_current_event (Some "response") empty_store));
    reflexivity.
Defined.

(** X2. The event context wins over the shape of the frame: under
    [event: response.status] a dict without [message] is skipped, also when
    it is a message delta with tool uses or carries a [status] of its own
    (lines 123-162). *)
Theorem status_context_wins_over_shape py self line members s :
  frame_of py line = Some (JObj members) ->
  lookup "message" members = None ->
  current_event s = Some "response.status" ->
  on_line py self line s = (Ok Next, collected line s).
Proof.
  intros Hf Hm Hev. rewrite (frame_of_on_line py self line _ s Hf).
  rewrite bind_run. unfold try_except, on_frame, bind, get_store.
  change (current_event (collected line s)) with (current_event s).
  rewrite Hev. cbn [event_is]. rewrite String.eqb_refl.
  unfold on_response_status, bind, lift. cbn [contains]. rewrite Hm.
  reflexivity.
Qed.

Lemma status_context_wins_over_shape_witness :
  frame_of Samples.python Samples.tool_use_line = Some Samples.tool_use
  /\ on_line Samples.python (Samples.chat_with (Some Samples.say_ok) (Some Samples.app_ok))
       Samples.tool_use_line (set_current_event (Some "response.status") empty_store)
     = (Ok Next,
        collected Samples.tool_use_line
          (set_current_event (Some "response.status") empty_store)).
Proof.
  split; [reflexivity |].
  apply (status_context_wins_over_shape Samples.python
           (Samples.chat_with (Some Samples.say_ok) (Some Samples.app_ok))
           Samples.tool_use_line
           [("object", JStr "message.delta");
            ("delta", JObj [("content", JArr [Samples.cortex_search_item])])]
           (set_current_event (Some "response.status") empty_store));
    reflexivity.
Defined.

(** X3. Outside any event context, a dict without [object] adds a planning
    step only when [secondary_status] says so: with no [status], a falsy
    [status], the status [REASONING_AGENT_STOP], or a missing or falsy
    [status_message], the frame is skipped and no call is made
    (lines 236-248). *)
Theorem filtered_status_frames_are_skipped py self line members s :
  frame_of py line = Some (JObj members) ->
  lookup "object" members = None \/ lookup "object" members = Some JNull ->
  secondary_status py line = None ->
  current_event s = None ->
  on_line py self line s = (Ok Next, collected line s).
Proof.
  intros Hf Hobj Hsec Hev.
  rewrite (frame_of_on_line py self line _ s Hf).
  rewrite bind_run. unfold try_except.
  rewrite (on_frame_untyped py self members (collected line s) Hev Hobj).
  unfold secondary_status in Hsec. unfold frame_of in Hf.
  destruct (Text.startswith line "data: "
            && negb (String.eqb (payload line) "[DONE]")
            && negb (Text.startswith (payload line) "[")); [| discriminate].
  rewrite Hf in Hsec.
  assert (K : match lookup "status" members, lookup "status_message" members with
              | Some status, Some status_msg =>
                  if truthy status && negb (mem status [JStr "REASONING_AGENT_STOP"])
                     && truthy status_msg
                  then Some status_msg else None
              | _, _ => None
              end = None).
  { destruct Hobj as [E | E]; rewrite E in Hsec; exact Hsec. }
  unfold on_untyped_object, bind, lift. cbn [contains get_default].
  destruct (lookup "status" members) as [status |]; [| reflexivity].
  unfold when at 1.
  destruct (truthy status && negb (mem status [JStr "REASONING_AGENT_STOP"])) eqn:E1;
    [| reflexivity].
  unfold when at 1.
  destruct (lookup "status_message" members) as [m |].
  - cbn [andb] in K. destruct (truthy m); [discriminate | reflexivity].
  - reflexivity.
Qed.

Lemma filtered_status_frames_are_skipped_witness :
  exists line,
    secondary_status
      {| json_loads := fun _ => Some (JObj [("status", JStr "REASONING_AGENT_STOP");
                                            ("status_message", JStr "done")]);
         str_of := fun _ => ""; type_error_str := fun _ => "";
         attribute_error_str := fun _ => ""; key_error_str := fun k => k |}
      line = None
    /\ on_line
         {| json_loads := fun _ => Some (JObj [("status", JStr "REASONING_AGENT_STOP");
                                               ("status_message", JStr "done")]);
            str_of := fun _ => ""; type_error_str := fun _ => "";
            attribute_error_str := fun _ => ""; key_error_str := fun k => k |}
         (Samples.chat_with (Some Samples.say_ok) (Some Samples.app_ok))
         line empty_store
       = (Ok Next, collected line empty_store).
Proof.
  exists "data: {}". split; [reflexivity |].
  apply (filtered_status_frames_are_skipped _ _ "data: {}"
           [("status", JStr "REASONING_AGENT_STOP"); ("status_message", JStr "done")]
           empty_store); try reflexivity.
  left. reflexivity.
Defined.

(** lines 124-161 on a dict with a [message], for a turn that has a message
    to update *)
Lemma primary_step py self app channel ts line msg s :
  slack_app self = Some app ->
  primary_status py line = Some msg ->
  under_status channel ts s ->
  on_line py self line s =
  (Ok Next,
   set_calls (calls s ++ [ChatUpdate (LatestStep channel ts msg)])
     (set_planning_updates (planning_updates s ++ [msg]) (collected line s))).
Proof.
  intros Happ Hp [Hts [Hch Hev]]. unfold primary_status in Hp.
  destruct (frame_of py line) as [[| | | | | members] |] eqn:Hf; try discriminate.
  rewrite (frame_of_on_line py self line _ s Hf).
  rewrite bind_run. unfold try_except, on_frame, bind, get_store.
  change (current_event (collected line s)) with (current_event s).
  rewrite Hev. cbn [event_is]. rewrite String.eqb_refl.
  unfold on_response_status, bind, lift. cbn [contains getitem]. rewrite Hp.
  unfold when, modify, get_store. rewrite Happ.
  change (planning_message_ts (set_planning_updates _ (collected line s)))
    with (planning_message_ts s).
  change (planning_channel (set_planning_updates _ (collected line s)))
    with (planning_channel s).
  rewrite Hts, Hch. unfold try_except, call_chat_update.
  change (planning_updates (set_planning_updates ?l _)) with l.
  rewrite latest_of_last.
  destruct (chat_update app _ _) as [[] | e]; reflexivity.
Qed.

(** X4. The primary channel is not throttled: in a turn that has a message
    to update, [k] status messages read under [event: response.status] are
    recorded as [k] planning steps and make [k] updates of the message, one
    per message and each showing its own message; whatever Slack answers to
    the updates, nothing is posted and the loop goes on (lines 123-162). *)
Theorem primary_channel_updates_every_step
    py self app channel ts lines msgs rest fault s :
  slack_app self = Some app ->
  Forall2 (fun line msg => primary_status py line = Some msg) lines msgs ->
  under_status channel ts s ->
  exists s',
    for_lines py self (lines ++ rest) fault s = for_lines py self rest fault s'
    /\ under_status channel ts s'
    /\ planning_updates s' = (planning_updates s ++ msgs)%list
    /\ calls s' = (calls s ++ latest_steps channel ts msgs)%list.
Proof.
  intros Happ H. revert s. induction H as [| line msg lines msgs Hl _ IH]; intros s Hs.
  - exists s. rewrite !app_nil_r. repeat split; try reflexivity; apply Hs.
  - cbn [List.app for_lines]. rewrite bind_run.
    rewrite (primary_step py self app channel ts line msg s Happ Hl Hs).
    match goal with |- context [for_lines py self (lines ++ rest) fault ?s1] =>
      destruct (IH s1) as [s' [Hrun [Hu [Hp Hc]]]]
    end.
    { exact Hs. }
    exists s'. split; [exact Hrun | split; [exact Hu |]].
    cbn [planning_updates set_calls set_planning_updates calls] in Hp, Hc.
    change (planning_updates (collected line s)) with (planning_updates s) in Hp.
    rewrite Hp, Hc, <- !app_assoc. split; reflexivity.
Qed.

Lemma primary_channel_updates_every_step_witness :
  exists s',
    for_lines Samples.python (Samples.chat_with (Some Samples.say_fails) (Some Samples.app_first_update_fails))
      ([Samples.searching_line; Samples.searching_line; Samples.searching_line] ++ [])
      None
      (set_current_event (Some "response.status")
         (set_planning_channel (Some "C1")
            (set_planning_message_ts (Some "1.0") empty_store)))
    = for_lines Samples.python (Samples.chat_with (Some Samples.say_fails) (Some Samples.app_first_update_fails))
        [] None s'
    /\ planning_updates s' = [JStr "Searching"; JStr "Searching"; JStr "Searching"]
    /\ calls s'
       = latest_steps "C1" "1.0" [JStr "Searching"; JStr "Searching"; JStr "Searching"].
Proof.
  destruct (primary_channel_updates_every_step
              Samples.python
              (Samples.chat_with (Some Samples.say_fails) (Some Samples.app_first_update_fails))
              Samples.app_first_update_fails "C1" "1.0"
              [Samples.searching_line; Samples.searching_line; Samples.searching_line]
              [JStr "Searching"; JStr "Searching"; JStr "Searching"]
              [] None
              (set_current_event (Some "response.status")
                 (set_planning_channel (Some "C1")
                    (set_planning_message_ts (Some "1.0") empty_store))))
    as [s' [Hrun [_ [Hp Hc]]]].
  - reflexivity.
  - repeat constructor.
  - repeat split.
  - exists s'. split; [exact Hrun | split; [exact Hp | exact Hc]].
Defined.





(** X6. Outside the two event contexts, a frame that is not a dict ends the
    loop: [json_data.get] raises, the [except json.JSONDecodeError] of the
    loop body does not take it, and the lines after it are not read; the
    line itself was counted and collected before (lines 102-110, 170,
    316). *)
Theorem scalar_frame_ends_the_loop py self line j rest fault s :
  frame_of py line = Some j ->
  (forall members, j <> JObj members) ->
  event_is (current_event s) "response.status" = false ->
  event_is (current_event s) "response" = false ->
  for_lines py self (line :: rest) fault s
  = (Raise (Exn OtherException (attribute_error_str py j)), collected line s).
Proof.
  intros Hf Hj H1 H2. cbn [for_lines]. rewrite bind_run.
  rewrite (frame_of_on_line py self line j s Hf).
  rewrite bind_run. unfold try_except, on_frame, bind, get_store, lift.
  change (current_event (collected line s)) with (current_event s).
  rewrite H1, H2.
  destruct j as [| b | z | t | l | members]; try reflexivity.
  exfalso. apply (Hj members). reflexivity.
Qed.

Lemma scalar_frame_ends_the_loop_witness :
  exists line,
    for_lines
      {| json_loads := fun _ => Some (JNum 42);
         str_of := fun _ => ""; type_error_str := fun _ => "";
         attribute_error_str := fun _ => "'int' object has no attribute 'get'";
         key_error_str := fun k => k |}
      (Samples.chat_with (Some Samples.say_ok) (Some Samples.app_ok))
      [line; Samples.searching_line] None empty_store
    = (Raise (Exn OtherException "'int' object has no attribute 'get'"),
       collected line empty_store).
Proof.
  exists "data: 42".
  apply (scalar_frame_ends_the_loop
           {| json_loads := fun _ => Some (JNum 42);
              str_of := fun _ => ""; type_error_str := fun _ => "";
              attribute_error_str := fun _ => "'int' object has no attribute 'get'";
              key_error_str := fun k => k |}
           (Samples.chat_with (Some Samples.say_ok) (Some Samples.app_ok))
           "data: 42" (JNum 42) [Samples.searching_line] None empty_store).
  - reflexivity.
  - intros members. discriminate.
  - reflexivity.
  - reflexivity.
Defined.

Lemma append_empty (a : string) : (a ++ "")%string = a.
Proof. induction a as [| c a IH]; simpl; [reflexivity | rewrite IH; reflexivity]. Qed.

Lemma append_assoc (a b c : string) : ((a ++ b) ++ c)%string = (a ++ (b ++ c))%string.
Proof. induction a as [| x a IH]; simpl; [reflexivity | rewrite IH; reflexivity]. Qed.

Lemma set_current_thinking_same s : set_current_thinking (current_thinking s) s = s.
Proof. destruct s; reflexivity. Qed.

Lemma concat_cons (t : string) (texts : list string) :
  String.concat "" (t :: texts) = (t ++ String.concat "" texts)%string.
Proof.
  destruct texts as [| t' texts]; cbn [String.concat].
  - rewrite append_empty. reflexivity.
  - reflexivity.
Qed.

(** lines 177-184 on one item of type [text] *)
Lemma on_text_item py item t s :
  carries_text py item t ->
  on_content_item py item s = (Ok tt, set_current_thinking (current_thinking s ++ t) s).
Proof.
  intros [Ht Hx]. unfold on_content_item, bind, lift. rewrite Ht.
  cbn [equal]. rewrite String.eqb_refl. rewrite Hx.
  cbn [truthy]. destruct (String.eqb t "") eqn:E.
  - apply String.eqb_eq in E. subst t. cbn [negb when].
    rewrite append_empty, set_current_thinking_same. reflexivity.
  - reflexivity.
Qed.

(** X7. The text deltas of a message delta are accumulated in order and in
    full: after the items of type [text] that carry the strings [texts],
    [current_thinking] is what it was followed by the strings, one after the
    other; nothing else of the store changes and no call is made
    (lines 173-184). *)
Theorem text_deltas_accumulate py items texts s :
  Forall2 (carries_text py) items texts ->
  for_each (on_content_item py) items s
  = (Ok tt, set_current_thinking (current_thinking s ++ String.concat "" texts) s).
Proof.
  intros H. revert s. induction H as [| item t items texts Hi _ IH]; intros s.
  - cbn [for_each String.concat]. rewrite append_empty, set_current_thinking_same.
    reflexivity.
  - cbn [for_each]. rewrite bind_run, (on_text_item py item t s Hi), IH.
    rewrite concat_cons. destruct s. cbn. rewrite append_assoc. reflexivity.
Qed.

Lemma text_deltas_accumulate_witness :
  for_each (on_content_item Samples.python)
    [JObj [("type", JStr "text"); ("text", JStr "Let me ")];
     JObj [("type", JStr "text")];
     JObj [("type", JStr "text"); ("text", JStr "look.")]]
    empty_store
  = (Ok tt, set_current_thinking "Let me look." empty_store).
Proof.
  apply (text_deltas_accumulate Samples.python
           [JObj [("type", JStr "text"); ("text", JStr "Let me ")];
            JObj [("type", JStr "text")];
            JObj [("type", JStr "text"); ("text", JStr "look.")]]
           ["Let me "; ""; "look."] empty_store).
  repeat constructor.
Defined.






(** X9. In the completion summary a verification wins over the SQL
    queries: when the summary dict has a truthy [verification_info] or a
    truthy [verified_query_used], the only additional information is the
    verification notice, whatever [sql_queries] holds (lines 344-356). *)
Theorem completion_info_prefers_verification py members v :
  lookup "verification_info" members = Some v
  \/ lookup "verified_query_used" members = Some v ->
  truthy v = true ->
  additional_info_of py (JObj members) = [Verified].
Proof.
  intros H Hv. unfold additional_info_of. cbn [get get_default].
  destruct H as [H | H]; rewrite H, Hv.
  - reflexivity.
  - rewrite orb_true_r. reflexivity.
Qed.

Lemma completion_info_prefers_verification_witness :
  additional_info_of Samples.python
    (JObj [("sql_queries", JArr [JStr "SELECT 1"; JStr "SELECT 2"]);
           ("verified_query_used", JBool true)])
  = [Verified].
Proof.
  apply (completion_info_prefers_verification Samples.python
           [("sql_queries", JArr [JStr "SELECT 1"; JStr "SELECT 2"]);
            ("verified_query_used", JBool true)]
           (JBool true)).
  - right. reflexivity.
  - reflexivity.
Defined.

Lemma filter_say_after_update log u :
  filter is_say (log ++ [ChatUpdate u]) = filter is_say log.
Proof. rewrite filter_app. cbn. apply app_nil_r. Qed.

(** X10. When the completion update cannot be made (the turn has planning
    steps, an app and a message, but no channel is known or Slack rejects
    the update), the completion is posted as a new message that lists all
    the planning steps, not the last three, and this is the only post; what
    the post answers is what the statement comes to (lines 337-412). *)
Theorem completion_falls_back_to_all_steps py self app say ts summary s :
  slack_app self = Some app ->
  slack_say self = Some say ->
  nonempty (planning_message_ts s) = Some ts ->
  planning_updates s <> [] ->
  nonempty (planning_channel s) = None
  \/ (exists channel e,
        nonempty (planning_channel s) = Some channel
        /\ chat_update app (length (filter is_chat_update (calls s)))
             (Completed channel ts (length (planning_updates s))
                (additional_info_of py summary)) = Raise e) ->
  exists attempt,
    finish_planning_message py self summary s
    = (match say (length (filter is_say (calls s)))
               (CompletedSteps (planning_updates s)) with
       | Ok _ => Ok tt
       | Raise e => Raise e
       end,
       set_calls (calls s ++ attempt ++ [Say (CompletedSteps (planning_updates s))]) s)
    /\ forallb is_chat_update attempt = true.
Proof.
  intros Happ Hsay Hts Hne H.
  unfold finish_planning_message, bind, get_store.
  destruct (planning_updates s) as [| x l] eqn:E; [contradiction |].
  rewrite Happ, Hts. unfold try_except.
  destruct H as [Hch | [channel [e [Hch Hup]]]]; rewrite Hch.
  - exists []. split; [| reflexivity].
    unfold raise. cbn [any_exception]. rewrite Hsay.
    unfold call_slack_say, pass, ret.
    destruct (say _ _); reflexivity.
  - exists [ChatUpdate (Completed channel ts (length (x :: l))
                          (additional_info_of py summary))].
    split; [| reflexivity].
    unfold call_chat_update. rewrite Hup. cbn [any_exception]. rewrite Hsay.
    unfold call_slack_say, pass, ret.
    cbn [calls set_calls]. rewrite filter_say_after_update.
    destruct (say _ _); cbn; rewrite <- app_assoc; reflexivity.
Qed.

Lemma completion_falls_back_to_all_steps_witness :
  exists attempt,
    finish_planning_message Samples.python
      (Samples.chat_with (Some Samples.say_ok) (Some Samples.app_first_update_fails))
      Samples.empty_summary
      (set_planning_updates [JStr "a"; JStr "b"; JStr "c"; JStr "d"]
         (set_planning_channel (Some "C0123456789")
            (set_planning_message_ts (Some "1.0") empty_store)))
    = (Ok tt,
       set_calls (attempt ++ [Say (CompletedSteps [JStr "a"; JStr "b"; JStr "c"; JStr "d"])])
         (set_planning_updates [JStr "a"; JStr "b"; JStr "c"; JStr "d"]
            (set_planning_channel (Some "C0123456789")
               (set_planning_message_ts (Some "1.0") empty_store))))
    /\ forallb is_chat_update attempt = true.
Proof.
  apply (completion_falls_back_to_all_steps Samples.python
           (Samples.chat_with (Some Samples.say_ok) (Some Samples.app_first_update_fails))
           Samples.app_first_update_fails Samples.say_ok "1.0" Samples.empty_summary
           (set_planning_updates [JStr "a"; JStr "b"; JStr "c"; JStr "d"]
              (set_planning_channel (Some "C0123456789")
                 (set_planning_message_ts (Some "1.0") empty_store)))).
  - reflexivity.
  - reflexivity.
  - reflexivity.
  - discriminate.
  - right. exists "C0123456789", (Exn OtherException "message_not_found").
    split; reflexivity.
Defined.

(** X11. Without a message to update (no app is configured, or the first
    post gave no timestamp), a turn that has planning steps posts its
    completion as a new message that gives the number of steps only; what
    the post answers is what the statement comes to (lines 337-339,
    413-427). *)
Theorem completion_without_message_posts_the_count py self say summary s :
  slack_say self = Some say ->
  slack_app self = None \/ nonempty (planning_message_ts s) = None ->
  planning_updates s <> [] ->
  finish_planning_message py self summary s
  = (match say (length (filter is_say (calls s)))
             (CompletedCount (length (planning_updates s))) with
     | Ok _ => Ok tt
     | Raise e => Raise e
     end,
     set_calls (calls s ++ [Say (CompletedCount (length (planning_updates s)))]) s).
Proof.
  intros Hsay H Hne.
  unfold finish_planning_message, bind, get_store.
  destruct (planning_updates s) as [| x l] eqn:E; [contradiction |].
  rewrite Hsay. unfold call_slack_say, pass, ret.
  destruct H as [H | H]; rewrite H.
  - destruct (say _ _); reflexivity.
  - destruct (slack_app self); destruct (say _ _); reflexivity.
Qed.

Lemma completion_without_message_posts_the_count_witness :
  finish_planning_message Samples.python
    (Samples.chat_with (Some Samples.say_ok) None) Samples.empty_summary
    (set_planning_updates [JStr "a"; JStr "b"] empty_store)
  = (Ok tt,
     set_calls [Say (CompletedCount 2)]
       (set_planning_updates [JStr "a"; JStr "b"] empty_store)).
Proof.
  apply (completion_without_message_posts_the_count Samples.python
           (Samples.chat_with (Some Samples.say_ok) None) Samples.say_ok
           Samples.empty_summary
           (set_planning_updates [JStr "a"; JStr "b"] empty_store)).
  - reflexivity.
  - left. reflexivity.
  - discriminate.
Defined.

Section Guarded.

Variable P : store -> Prop.
Variable R : store -> store -> Prop.
Hypothesis R_refl : forall s, R s s.
Hypothesis R_trans : forall a b c, R a b -> R b c -> R a c.
Hypothesis R_keeps : forall s s', R s s' -> P s -> P s'.

Lemma guarded_of_preserves A (c : M A) : preserves R c -> guarded P R c.
Proof. intros H s _. apply H. Qed.

Lemma guarded_ret A (a : A) : guarded P R (ret a).
Proof. intros s _. apply R_refl. Qed.

Lemma guarded_modify (f : store -> store) :
  (forall s, R s (f s)) -> guarded P R (modify f).
Proof. intros H s _. apply H. Qed.

Lemma guarded_bind A B (c : M A) (k : A -> M B) :
  guarded P R c -> (forall a, guarded P R (k a)) -> guarded P R (bind c k).
Proof.
  intros Hc Hk s Hs. unfold bind. specialize (Hc s Hs).
  destruct (c s) as [[a | e] s1]; cbn [snd] in *.
  - eapply R_trans; [exact Hc |].
    apply Hk. eapply R_keeps; eassumption.
  - exact Hc.
Qed.

Lemma guarded_try_except A (c : M A) handles (h : exn -> M A) :
  guarded P R c -> (forall e, guarded P R (h e)) -> guarded P R (try_except c handles h).
Proof.
  intros Hc Hh s Hs. unfold try_except. specialize (Hc s Hs).
  destruct (c s) as [[a | e] s1]; cbn [snd] in *.
  - exact Hc.
  - destruct (handles e); cbn [snd].
    + eapply R_trans; [exact Hc |].
      apply Hh. eapply R_keeps; eassumption.
    + exact Hc.
Qed.

Variable py : Python.
Variable self : CortexChat.
Hypothesis R_count : forall s, R s (set_line_count (line_count s + 1) s).
Hypothesis R_lines : forall l s, R s (set_response_lines (response_lines s ++ [l]) s).
Hypothesis R_event : forall e s, R s (set_current_event e s).
Hypothesis frames : forall j, guarded P R (on_frame py self j).

Lemma guarded_on_line line : guarded P R (on_line py self line).
Proof.
  unfold on_line.
  apply guarded_bind; [apply guarded_modify; exact R_count | intros _].
  destruct (String.eqb line ""); [apply guarded_ret |].
  apply guarded_bind; [apply guarded_modify; apply R_lines | intros _].
  destruct (Text.startswith line "event: ").
  { apply guarded_bind; [apply guarded_modify; apply R_event | intros _].
    apply guarded_ret. }
  destruct (Text.startswith line "data: "); [| apply guarded_ret].
  cbv zeta.
  destruct (String.eqb _ "[DONE]"); [apply guarded_ret |].
  destruct (negb _); [| apply guarded_ret].
  destruct (json_loads py _) as [j |]; [| apply guarded_ret].
  apply guarded_bind; [| intros _; apply guarded_ret].
  apply guarded_try_except; [apply frames | intros _; apply guarded_ret].
Qed.

Lemma guarded_for_lines lines fault : guarded P R (for_lines py self lines fault).
Proof.
  induction lines as [| l lines IH]; cbn [for_lines].
  - destruct fault; intros s _; apply R_refl.
  - apply guarded_bind; [apply guarded_on_line |].
    intros [|]; [exact IH | apply guarded_ret].
Qed.

End Guarded.

Lemma quiet_refl s : quiet s s.
Proof. split; reflexivity. Qed.

Lemma quiet_trans a b c : quiet a b -> quiet b c -> quiet a c.
Proof. intros [H1 H2] [H3 H4]. split; congruence. Qed.

Lemma quiet_no_message s s' : quiet s s' -> no_message s -> no_message s'.
Proof. intros [_ H] K. unfold no_message in *. rewrite H. exact K. Qed.

Ltac quiet_frame :=
  frame quiet_refl quiet_trans ltac:(split; reflexivity).

Lemma quiet_on_message_delta py j : preserves quiet (on_message_delta py j).
Proof.
  unfold on_message_delta. quiet_frame.
  all: unfold on_content_item.
  all: quiet_frame.
Qed.

(** lines 124-161 without a message to update *)
Lemma silent_on_response_status py self j :
  guarded no_message quiet (on_response_status py self j).
Proof.
  intros s Hs. unfold on_response_status, bind, lift.
  destruct (contains py "message" j) as [[|] | e]; try apply quiet_refl.
  unfold when. destruct (getitem py j "message") as [m | e]; [| apply quiet_refl].
  unfold modify, get_store.
  change (planning_message_ts (set_planning_updates (planning_updates s ++ [m]) s))
    with (planning_message_ts s).
  unfold no_message in Hs. rewrite Hs.
  destruct (slack_app self); split; reflexivity.
Qed.

(** lines 236-305 without a message to refresh *)
Lemma silent_on_untyped_object py self j :
  guarded no_message quiet (on_untyped_object py self j).
Proof.
  intros s Hs. unfold on_untyped_object, bind, lift.
  destruct (contains py "status" j) as [[|] | e]; try apply quiet_refl.
  unfold when at 1.
  destruct (get_default py j "status" (JStr "")) as [status | e]; [| apply quiet_refl].
  destruct (get_default py j "status_message" (JStr "")) as [m | e]; [| apply quiet_refl].
  unfold when at 1.
  destruct (truthy status && negb (mem status [JStr "REASONING_AGENT_STOP"]));
    [| apply quiet_refl].
  unfold when at 1. destruct (truthy m); [| apply quiet_refl].
  unfold modify, get_store.
  change (planning_message_ts (set_planning_updates (planning_updates s ++ [m]) s))
    with (planning_message_ts s).
  unfold no_message in Hs. rewrite Hs.
  destruct (slack_app self); split; reflexivity.
Qed.

(** lines 122-314 are lines 124-161, nothing, lines 171-233 or lines
    237-314, by the event context and the [object] of the frame *)
Lemma guarded_on_frame P R py self j :
  (forall s, R s s) ->
  guarded P R (on_response_status py self j) ->
  preserves R (on_message_delta py j) ->
  guarded P R (on_untyped_object py self j) ->
  guarded P R (on_frame py self j).
Proof.
  intros refl Hstatus Hdelta Huntyped s Hs.
  unfold on_frame. unfold bind at 1. unfold get_store at 1.
  destruct (event_is (current_event s) "response.status").
  - apply Hstatus. exact Hs.
  - destruct (event_is (current_event s) "response"); [apply refl |].
    unfold bind, lift. destruct (get py j "object") as [object | e]; [| apply refl].
    destruct (equal object (JStr "message.delta")).
    + apply Hdelta.
    + destruct (is_none object); [| apply refl].
      apply Huntyped. exact Hs.
Qed.

Lemma silent_for_lines py self lines fault :
  guarded no_message quiet (for_lines py self lines fault).
Proof.
  apply (guarded_for_lines no_message quiet quiet_refl quiet_trans quiet_no_message).
  - intros s. split; reflexivity.
  - intros l s. split; reflexivity.
  - intros e s. split; reflexivity.
  - intros j. apply guarded_on_frame.
    + apply quiet_refl.
    + apply silent_on_response_status.
    + apply quiet_on_message_delta.
    + apply silent_on_untyped_object.
Qed.

(** lines 337-427 without a message to update and without a post function *)
Lemma silent_finish_planning_message py self summary :
  slack_say self = None ->
  guarded no_message quiet (finish_planning_message py self summary).
Proof.
  intros Hsay s Hs. unfold finish_planning_message, bind, get_store.
  destruct (planning_updates s); [apply quiet_refl |].
  unfold no_message in Hs. rewrite Hs, Hsay.
  destruct (slack_app self); apply quiet_refl.
Qed.

(** lines 319-444, given what the completion message does *)
Lemma guarded_finish_turn P R py self :
  (forall s, R s s) ->
  (forall a b c, R a b -> R b c -> R a c) ->
  (forall s s', R s s' -> P s -> P s') ->
  (forall v s, R s (set_planning_steps v s)) ->
  (forall v s, R s (set_sql_queries v s)) ->
  (forall v s, R s (set_verification_info v s)) ->
  (forall v s, R s (set_verified_query_used v s)) ->
  (forall summary, guarded P R (finish_planning_message py self summary)) ->
  guarded P R (finish_turn py self).
Proof.
  intros refl trans keeps H1 H2 H3 H4 Hfinish. unfold finish_turn.
  repeat first
    [ apply Hfinish
    | apply (guarded_ret P R refl)
    | apply (guarded_bind P R trans keeps); [| intros ?]
    | apply (guarded_modify P R); solve [auto]
    | apply (guarded_of_preserves P R);
      first [ apply (@preserves_get_store _ refl) | apply (@preserves_lift _ refl) ] ].
Qed.

Lemma silent_finish_turn py self :
  slack_say self = None -> guarded no_message quiet (finish_turn py self).
Proof.
  intros Hsay.
  apply (guarded_finish_turn no_message quiet py self
           quiet_refl quiet_trans quiet_no_message);
    try (intros v s; split; reflexivity).
  intros summary. apply silent_finish_planning_message. exact Hsay.
Qed.

Lemma start_turn_silent self s :
  slack_say self = None ->
  exists s', start_turn self s = (Ok tt, s') /\ calls s' = calls s /\ no_message s'.
Proof.
  intros Hsay. unfold start_turn. rewrite Hsay.
  eexists. split; [reflexivity | split; reflexivity].
Qed.

Lemma handle_error_silent self error_msg slack_title s :
  slack_say self = None ->
  calls (snd (_handle_error self error_msg slack_title s)) = calls s.
Proof. intros Hsay. unfold _handle_error. rewrite Hsay. reflexivity. Qed.

(** X12. Without a post function a turn makes no Slack call at all, also
    when an app and a channel are configured: the message that updates
    would go to is created by the first post only, so no update is ever
    attempted, and the error path posts nothing either; this holds for every
    response, stream failure and parser answer (lines 67-86, 132, 251, 339,
    399, 414, 469). *)
Theorem no_post_function_no_slack_call py self transport s :
  slack_say self = None ->
  calls (snd (chat py self transport s)) = calls s.
Proof.
  intros Hsay. unfold chat, _retrieve_response, try_except.
  assert (T : calls (snd (try_block py self transport s)) = calls s).
  { unfold try_block. unfold bind at 1. unfold lift at 1.
    destruct transport as [response | e]; [| reflexivity].
    rewrite bind_run.
    destruct (start_turn_silent self s Hsay) as [s0 [Hrun [Hc Hn]]].
    rewrite Hrun, <- Hc.
    assert (S : guarded no_message quiet
                  (for_lines py self (iter_lines response) (fault response) ;;
                   finish_turn py self)).
    { apply (guarded_bind no_message quiet quiet_trans quiet_no_message);
        [apply silent_for_lines | intros _].
      apply silent_finish_turn. exact Hsay. }
    apply (S s0 Hn). }
  destruct (try_block py self transport s) as [[summary | e] s1]; cbn [snd] in *.
  - exact T.
  - cbn [any_exception]. rewrite except_clauses_handle_error.
    rewrite (handle_error_silent self _ _ s1 Hsay). exact T.
Qed.

Lemma no_post_function_no_slack_call_witness :
  calls (snd (chat Samples.python (Samples.chat_with None (Some Samples.app_ok))
                (Samples.stream [Samples.status_event_line; Samples.searching_line;
                                 Samples.searching_line; Samples.done])
                empty_store))
  = [].
Proof.
  apply (no_post_function_no_slack_call Samples.python
           (Samples.chat_with None (Some Samples.app_ok))
           (Samples.stream [Samples.status_event_line; Samples.searching_line;
                            Samples.searching_line; Samples.done])
           empty_store).
  reflexivity.
Defined.

Lemma on_line_not_done py self line s s' :
  on_line py self line s = (Ok Next, s') -> done_line line = false.
Proof.
  intros H. destruct (done_line line) eqn:E; [| reflexivity].
  rewrite (@on_line_done py self line s E) in H. discriminate.
Qed.

(** X13. A failure of the stream surfaces only once the lines delivered
    before it have been handled, and only if none of them ended the loop:
    with a failing stream the loop does what it does on the same lines of a
    stream that ends, except that it raises the failure where the other
    returns at the end of the lines; with an end marker among the lines the
    failure is never seen (lines 100-117). *)
Theorem stream_failure_surfaces_after_the_lines py self lines e s :
  for_lines py self lines (Some e) s
  = match for_lines py self lines None s with
    | (Ok _, s') =>
        if existsb done_line lines then (Ok tt, s') else (Raise e, s')
    | (Raise e', s') => (Raise e', s')
    end.
Proof.
  revert s. induction lines as [| l lines IH]; intros s; [reflexivity |].
  cbn [for_lines existsb]. rewrite !bind_run.
  destruct (on_line py self l s) as [[[|] | e'] s1] eqn:E.
  - rewrite (on_line_not_done py self l s s1 E). cbn [orb]. apply IH.
  - rewrite (@on_line_break py self l s s1 E). reflexivity.
  - reflexivity.
Qed.


Lemma same_steps_refl s : same_steps s s.
Proof. reflexivity. Qed.

Lemma same_steps_trans a b c : same_steps a b -> same_steps b c -> same_steps a c.
Proof. unfold same_steps. congruence. Qed.

Lemma same_steps_finish py self summary :
  preserves same_steps (finish_planning_message py self summary).
Proof.
  unfold finish_planning_message.
  frame same_steps_refl same_steps_trans ltac:(first [ intros ?; reflexivity | reflexivity ]).
Qed.

(** X15. When the method gets to its [return summary], the planning
    details kept on [self] are those of the turn: [planning_steps] is the
    list of the planning steps recorded while the stream was read, which the
    completion message leaves as it is, the summary the parser extracted is
    a dict, and [sql_queries] is its entry of that name, [[]] when it has
    none (lines 331-332, 444). *)
Theorem planning_details_are_kept_at_return py self transport s summary s' :
  try_block py self transport s = (Ok summary, s') ->
  planning_steps s' = Some (planning_updates s')
  /\ exists members,
       summary = JObj members
       /\ sql_queries s'
          = Some (match lookup "sql_queries" members with
                  | Some q => q
                  | None => JArr []
                  end).
Proof.
  unfold try_block. rewrite bind_run. unfold lift at 1.
  destruct transport as [response | e]; [| discriminate].
  rewrite bind_run. destruct (start_turn self s) as [[[] | e] s0]; [| discriminate].
  rewrite bind_run.
  destruct (for_lines py self (iter_lines response) (fault response) s0)
    as [[[] | e] s1]; [| discriminate].
  unfold finish_turn. unfold bind at 1. unfold get_store at 1.
  unfold bind at 1. unfold lift at 1.
  destruct (parse_response self (response_lines s1)) as [p | e]; [| discriminate].
  unfold bind at 1. unfold lift at 1.
  destruct (extract_summary (parser self) p) as [j | e]; [| discriminate].
  unfold bind at 1. unfold modify at 1.
  unfold bind at 1. unfold lift at 1.
  destruct j as [| | | | | members]; try discriminate.
  cbn [get_default]. unfold bind, lift, modify, ret.
  match goal with |- context [finish_planning_message py self ?j ?s2] =>
    pose proof (same_summary_attributes_finish py self j s2) as F;
    pose proof (same_steps_finish py self j s2) as G;
    destruct (finish_planning_message py self j s2) as [[[] | e] s3]
  end; [| discriminate].
  intros H. injection H as <- <-. destruct F as [F1 [F2 _]].
  cbn [snd] in F1, F2, G. unfold same_steps in G.
  split.
  - rewrite F1, G. reflexivity.
  - exists members. split; [reflexivity | exact F2].
Qed.

Lemma planning_details_are_kept_at_return_witness :
  fst (try_block Samples.python
         (Samples.chat_with (Some Samples.say_ok) (Some Samples.app_ok))
         (Samples.stream [Samples.running_line; Samples.tool_use_line; Samples.done])
         empty_store)
  = Ok Samples.empty_summary
  /\ planning_steps
       (snd (try_block Samples.python
               (Samples.chat_with (Some Samples.say_ok) (Some Samples.app_ok))
               (Samples.stream [Samples.running_line; Samples.tool_use_line; Samples.done])
               empty_store))
     = Some (planning_updates
               (snd (try_block Samples.python
                       (Samples.chat_with (Some Samples.say_ok) (Some Samples.app_ok))
                       (Samples.stream [Samples.running_line; Samples.tool_use_line;
                                        Samples.done])
                       empty_store))).
Proof.
  assert (E : try_block Samples.python
                (Samples.chat_with (Some Samples.say_ok) (Some Samples.app_ok))
                (Samples.stream [Samples.running_line; Samples.tool_use_line; Samples.done])
                empty_store
              = (Ok Samples.empty_summary,
                 snd (try_block Samples.python
                        (Samples.chat_with (Some Samples.say_ok) (Some Samples.app_ok))
                        (Samples.stream [Samples.running_line; Samples.tool_use_line;
                                         Samples.done])
                        empty_store))).
  { vm_compute. reflexivity. }
  split.
  - rewrite E. reflexivity.
  - exact (proj1 (planning_details_are_kept_at_return Samples.python
                    (Samples.chat_with (Some Samples.say_ok) (Some Samples.app_ok))
                    (Samples.stream [Samples.running_line; Samples.tool_use_line;
                                     Samples.done])
                    empty_store Samples.empty_summary _ E)).
Defined.

Lemma startswith_empty s : Text.startswith s "" = true.
Proof. destruct s; reflexivity. Qed.

Lemma leading_blank r : Text.leading Text.whitespace (String " " r) = Some " ".
Proof. destruct r; reflexivity. Qed.

Lemma leading_blank_rev r :
  Text.leading (map Text.rev Text.whitespace) (String " " r) = Some " ".
Proof. destruct r; reflexivity. Qed.

Lemma lstrip_with_blanks pats a fuel w :
  (forall r, Text.leading pats (String " " r) = Some " ") ->
  Text.leading pats w = None ->
  a <= fuel ->
  Text.lstrip_with pats fuel (blanks a ++ w) = w.
Proof.
  intros Hb Hw. revert fuel. induction a as [| a IH]; intros fuel Ha.
  - cbn [blanks append]. destruct fuel; [reflexivity |].
    cbn [Text.lstrip_with]. destruct w; [reflexivity |]. rewrite Hw. reflexivity.
  - destruct fuel as [| fuel]; [lia |].
    cbn [blanks append Text.lstrip_with]. rewrite Hb.
    cbn [String.length Text.drop]. apply IH. lia.
Qed.

Lemma length_append (a b : string) :
  String.length (a ++ b) = String.length a + String.length b.
Proof. induction a as [| c a IH]; simpl; [reflexivity | rewrite IH; reflexivity]. Qed.

Lemma length_blanks n : String.length (blanks n) = n.
Proof. induction n as [| n IH]; simpl; [reflexivity | rewrite IH; reflexivity]. Qed.

Lemma rev_acc_append s acc : Text.rev_acc s acc = (Text.rev s ++ acc)%string.
Proof.
  unfold Text.rev. revert acc. induction s as [| c s IH]; intros acc; [reflexivity |].
  cbn [Text.rev_acc]. rewrite IH, (IH (String c EmptyString)), append_assoc.
  reflexivity.
Qed.

Lemma rev_append (a b : string) : Text.rev (a ++ b) = (Text.rev b ++ Text.rev a)%string.
Proof.
  induction a as [| c a IH].
  - cbn. rewrite append_empty. reflexivity.
  - unfold Text.rev in *. cbn [append Text.rev_acc].
    rewrite (rev_acc_append a), (rev_acc_append (a ++ b)).
    unfold Text.rev. rewrite IH, append_assoc. reflexivity.
Qed.

Lemma blanks_snoc n : (blanks n ++ " ")%string = String " " (blanks n).
Proof. induction n as [| n IH]; [reflexivity |]. cbn [blanks append]. rewrite IH. reflexivity. Qed.

Lemma rev_blanks n : Text.rev (blanks n) = blanks n.
Proof.
  induction n as [| n IH]; [reflexivity |].
  unfold Text.rev in *. cbn [blanks Text.rev_acc].
  rewrite rev_acc_append. unfold Text.rev. rewrite IH. apply blanks_snoc.
Qed.

Lemma rev_involutive s : Text.rev (Text.rev s) = s.
Proof.
  induction s as [| c s IH]; [reflexivity |].
  unfold Text.rev at 2. cbn [Text.rev_acc]. rewrite rev_acc_append, rev_append.
  rewrite IH. reflexivity.
Qed.

(** [strip] removes the blanks around a text that neither starts nor ends
    with white space *)
Lemma strip_blanks a b w :
  (forall r, Text.leading Text.whitespace (w ++ r) = None) ->
  (forall r, Text.leading (map Text.rev Text.whitespace) (Text.rev w ++ r) = None) ->
  Text.strip (blanks a ++ w ++ blanks b) = w.
Proof.
  intros Hl Hr. unfold Text.strip, Text.lstrip.
  rewrite (lstrip_with_blanks Text.whitespace a _ (w ++ blanks b) leading_blank (Hl _)).
  2:{ rewrite length_append, length_blanks. lia. }
  unfold Text.rstrip. rewrite rev_append, rev_blanks.
  rewrite <- (append_empty (Text.rev w)).
  rewrite (lstrip_with_blanks (map Text.rev Text.whitespace) b _ (Text.rev w ++ "")
             leading_blank_rev (Hr _)).
  2:{ rewrite length_append, length_blanks. lia. }
  rewrite append_empty. apply rev_involutive.
Qed.

Lemma data_prefix x :
  Text.startswith ("data: " ++ x) "data: " = true /\ Text.drop 6 ("data: " ++ x) = x.
Proof. split; [cbn; apply startswith_empty | reflexivity]. Qed.

Lemma event_prefix x :
  Text.startswith ("event: " ++ x) "event: " = true
  /\ Text.drop 7 ("event: " ++ x) = x
  /\ String.eqb ("event: " ++ x) "" = false.
Proof. split; [cbn; apply startswith_empty | split; reflexivity]. Qed.

(** X16. Blanks around the payload of a [data: ] line and around the name
    of an [event: ] line do not count: a [data: ] line whose payload is the
    end marker with blanks before or after it ends the loop, the lines after
    it unread, and an [event: ] line that names [response.status] with
    blanks around the name opens the status context (lines 107-117). *)
Theorem blanks_around_marker_and_event_name py self a b rest fault s :
  for_lines py self (("data: " ++ blanks a ++ "[DONE]" ++ blanks b) :: rest) fault s
  = (Ok tt, collected ("data: " ++ blanks a ++ "[DONE]" ++ blanks b) s)
  /\ on_line py self ("event: " ++ blanks a ++ "response.status" ++ blanks b) s
     = (Ok Next,
        set_current_event (Some "response.status")
          (collected ("event: " ++ blanks a ++ "response.status" ++ blanks b) s)).
Proof.
  split.
  - cbn [for_lines]. rewrite bind_run.
    rewrite (@on_line_done py self _ s); [reflexivity |].
    unfold done_line, payload.
    destruct (data_prefix (blanks a ++ "[DONE]" ++ blanks b)) as [-> ->].
    rewrite (strip_blanks a b "[DONE]"); [reflexivity | |]; intros r; reflexivity.
  - unfold on_line. cbn [bind modify].
    destruct (event_prefix (blanks a ++ "response.status" ++ blanks b))
      as [-> [-> ->]].
    rewrite (strip_blanks a b "response.status"); [reflexivity | |];
      intros r; reflexivity.
Qed.

Lemma posts_only_refl s : posts_only s s.
Proof. split; [apply appends_refl | reflexivity]. Qed.

Lemma posts_only_trans a b c : posts_only a b -> posts_only b c -> posts_only a c.
Proof.
  intros [H1 H2] [H3 H4]. split; [eapply appends_trans; eassumption | congruence].
Qed.

Lemma posts_only_no_channel s s' : posts_only s s' -> no_channel s -> no_channel s'.
Proof. intros [_ H] K. unfold no_channel in *. rewrite H. exact K. Qed.

Lemma posts_only_same s s' :
  calls s' = calls s -> planning_channel s' = planning_channel s -> posts_only s s'.
Proof. intros H K. split; [apply appends_same; exact H | exact K]. Qed.

Lemma posts_only_say say p : preserves posts_only (call_slack_say say p).
Proof. intros s. split; [apply appends_say; reflexivity | reflexivity]. Qed.

Ltac posts_only_frame :=
  frame posts_only_refl posts_only_trans
    ltac:(first [ apply posts_only_say | apply posts_only_same; reflexivity ]).

Lemma posts_only_on_message_delta py j : preserves posts_only (on_message_delta py j).
Proof.
  unfold on_message_delta. posts_only_frame.
  all: unfold on_content_item.
  all: posts_only_frame.
Qed.

(** lines 124-161 without a channel *)
Lemma channelless_on_response_status py self j :
  guarded no_channel posts_only (on_response_status py self j).
Proof.
  intros s Hs. unfold on_response_status, bind, lift.
  destruct (contains py "message" j) as [[|] | e]; try apply posts_only_refl.
  unfold when. destruct (getitem py j "message") as [m | e]; [| apply posts_only_refl].
  unfold modify, get_store.
  change (planning_channel (set_planning_updates (planning_updates s ++ [m]) s))
    with (planning_channel s).
  unfold no_channel in Hs. rewrite Hs.
  destruct (slack_app self); [destruct (nonempty (planning_message_ts _)) |];
    apply posts_only_same; reflexivity.
Qed.

(** lines 252-305 when the app has no channel: nothing is done *)
Lemma refresh_without_channel self app ts s :
  nonempty (channel_id app) = None ->
  refresh_planning_message self app ts s = (Ok tt, s).
Proof.
  intros H. unfold refresh_planning_message, bind, get_store, try_except.
  rewrite H. reflexivity.
Qed.

(** lines 236-305 when the app has no channel *)
Lemma channelless_on_untyped_object py self j :
  (forall app, slack_app self = Some app -> nonempty (channel_id app) = None) ->
  guarded no_channel posts_only (on_untyped_object py self j).
Proof.
  intros Hno s _. unfold on_untyped_object, bind, lift.
  destruct (contains py "status" j) as [[|] | e]; try apply posts_only_refl.
  unfold when at 1.
  destruct (get_default py j "status" (JStr "")) as [status | e];
    [| apply posts_only_refl].
  destruct (get_default py j "status_message" (JStr "")) as [m | e];
    [| apply posts_only_refl].
  unfold when at 1.
  destruct (truthy status && negb (mem status [JStr "REASONING_AGENT_STOP"]));
    [| apply posts_only_refl].
  unfold when at 1. destruct (truthy m); [| apply posts_only_refl].
  unfold modify, get_store.
  destruct (slack_app self) as [app |] eqn:Happ;
    [| apply posts_only_same; reflexivity].
  destruct (nonempty (planning_message_ts _)); [| apply posts_only_same; reflexivity].
  unfold when. destruct (Nat.eqb _ 0); [| apply posts_only_same; reflexivity].
  rewrite (refresh_without_channel self app _ _ (Hno app eq_refl)).
  apply posts_only_same; reflexivity.
Qed.

(** lines 337-427 without a channel: the update is not attempted *)
Lemma channelless_finish_planning_message py self summary :
  guarded no_channel posts_only (finish_planning_message py self summary).
Proof.
  intros s Hs. unfold finish_planning_message, bind, get_store.
  destruct (planning_updates s); [apply posts_only_refl |].
  unfold no_channel in Hs. rewrite Hs.
  destruct (slack_app self); [destruct (nonempty (planning_message_ts _)) |];
    unfold try_except, raise; cbn [any_exception];
    (destruct (slack_say self) as [say |]; [| apply posts_only_refl]);
    unfold call_slack_say, bind, pass, ret;
    (destruct (say _ _); (split; [| reflexivity]);
     eexists; (split; [reflexivity | reflexivity])).
Qed.

Lemma start_turn_channel self s :
  planning_channel (snd (start_turn self s))
  = match slack_app self with
    | Some app => channel_id app
    | None => None
    end.
Proof.
  unfold start_turn, bind, modify.
  destruct (slack_say self) as [say |]; [| reflexivity].
  unfold call_slack_say. destruct (say _ _) as [r | e]; [| reflexivity].
  destruct (nonempty r); reflexivity.
Qed.

(** X17. Without a channel the app is never used: when no app is
    configured or the app has no channel, a turn makes no update of a
    message, on either channel of the stream or at completion, whatever the
    response, and what it has to say goes out as posts (lines 69, 132,
    257-258, 363, 393-412). *)
Theorem no_channel_no_update py self transport s :
  (forall app, slack_app self = Some app -> nonempty (channel_id app) = None) ->
  filter is_chat_update (calls (snd (chat py self transport s)))
  = filter is_chat_update (calls s).
Proof.
  intros Hno. apply appends_say_updates.
  unfold chat, _retrieve_response.
  assert (T : appends is_say s (snd (try_block py self transport s))).
  { unfold try_block. unfold bind at 1. unfold lift at 1.
    destruct transport as [response | e]; [| apply appends_refl].
    rewrite bind_run.
    pose proof (@appends_start_turn self is_say eq_refl s) as A.
    pose proof (start_turn_channel self s) as C.
    destruct (start_turn self s) as [[[] | e] s0]; cbn [snd] in *; [| exact A].
    assert (N : no_channel s0).
    { unfold no_channel. rewrite C. destruct (slack_app self) as [app |] eqn:E.
      - apply (Hno app eq_refl).
      - reflexivity. }
    assert (G : guarded no_channel posts_only
                  (for_lines py self (iter_lines response) (fault response) ;;
                   finish_turn py self)).
    { apply (guarded_bind no_channel posts_only posts_only_trans posts_only_no_channel).
      - apply (guarded_for_lines no_channel posts_only
                 posts_only_refl posts_only_trans posts_only_no_channel);
          try (intros; apply posts_only_same; reflexivity).
        intros j. apply guarded_on_frame.
        + apply posts_only_refl.
        + apply channelless_on_response_status.
        + apply posts_only_on_message_delta.
        + apply channelless_on_untyped_object. exact Hno.
      - intros _.
        apply (guarded_finish_turn no_channel posts_only py self
                 posts_only_refl posts_only_trans posts_only_no_channel);
          try (intros; apply posts_only_same; reflexivity).
        intros summary. apply channelless_finish_planning_message. }
    eapply appends_trans; [exact A | apply (G s0 N)]. }
  unfold try_except.
  destruct (try_block py self transport s) as [[summary | e] s1]; cbn [snd] in *.
  - exact T.
  - cbn [any_exception]. rewrite except_clauses_handle_error.
    eapply appends_trans; [exact T |].
    apply (@appends_handle_error self is_say). intros t m. reflexivity.
Qed.

Lemma no_channel_no_update_witness :
  filter is_chat_update
    (calls (snd (chat Samples.python
                   (Samples.chat_with (Some Samples.say_ok)
                      (Some {| channel_id := None; chat_update := fun _ _ => Ok tt |}))
                   (Samples.stream [Samples.running_line; Samples.running_line;
                                    Samples.done])
                   empty_store)))
  = [].
Proof.
  apply (no_channel_no_update Samples.python
           (Samples.chat_with (Some Samples.say_ok)
              (Some {| channel_id := None; chat_update := fun _ _ => Ok tt |}))
           (Samples.stream [Samples.running_line; Samples.running_line; Samples.done])
           empty_store).
  intros app H. injection H as <-. reflexivity.
Defined.

(** X18. Outside the two event contexts a dict whose [object] is neither
    ["message.delta"] nor absent or [null] is skipped, whatever else it
    holds: no step is recorded and no call is made (lines 170, 236). *)
Theorem other_objects_are_skipped py self line members object s :
  frame_of py line = Some (JObj members) ->
  lookup "object" members = Some object ->
  equal object (JStr "message.delta") = false ->
  object <> JNull ->
  event_is (current_event s) "response.status" = false ->
  event_is (current_event s) "response" = false ->
  on_line py self line s = (Ok Next, collected line s).
Proof.
  intros Hf Hobj Hne Hnull H1 H2.
  rewrite (frame_of_on_line py self line _ s Hf).
  rewrite bind_run. unfold try_except, on_frame, bind, get_store, lift.
  change (current_event (collected line s)) with (current_event s).
  rewrite H1, H2. cbn [get]. rewrite Hobj, Hne.
  destruct object; try reflexivity. contradiction.
Qed.

Lemma other_objects_are_skipped_witness :
  exists line,
    on_line
      {| json_loads := fun _ => Some (JObj [("object", JStr "message.start");
                                            ("status", JStr "EXECUTING");
                                            ("status_message", JStr "Running")]);
         str_of := fun _ => ""; type_error_str := fun _ => "";
         attribute_error_str := fun _ => ""; key_error_str := fun k => k |}
      (Samples.chat_with (Some Samples.say_ok) (Some Samples.app_ok))
      line empty_store
    = (Ok Next, collected line empty_store).
Proof.
  exists "data: {}".
  apply (other_objects_are_skipped _ _ "data: {}"
           [("object", JStr "message.start"); ("status", JStr "EXECUTING");
            ("status_message", JStr "Running")]
           (JStr "message.start") empty_store); try reflexivity.
  discriminate.
Defined.










Lemma same_event_refl s : same_event s s.
Proof. reflexivity. Qed.

Lemma same_event_trans a b c : same_event a b -> same_event b c -> same_event a c.
Proof. unfold same_event. congruence. Qed.

Lemma same_event_on_frame py self j : preserves same_event (on_frame py self j).
Proof.
  unfold on_frame, on_response_status, on_message_delta, on_untyped_object,
    refresh_planning_message.
  frame same_event_refl same_event_trans
    ltac:(first [ intros ?; reflexivity | reflexivity ]).
  all: unfold on_content_item.
  all: frame same_event_refl same_event_trans
         ltac:(first [ intros ?; reflexivity | reflexivity ]).
Qed.

(** X20. The event context is set by [event: ] lines only and lasts until
    the next one: no other line changes it, whatever its frame makes the
    loop do and whether the iteration returns, breaks or raises, so a
    context opened once applies to every [data: ] line up to the next
    [event: ] line (lines 99, 107-109). *)
Theorem event_context_lasts_until_next_event py self line s :
  Text.startswith line "event: " = false ->
  current_event (snd (on_line py self line s)) = current_event s.
Proof.
  intros He. unfold on_line. cbn [bind modify].
  destruct (String.eqb line ""); [reflexivity |]. cbn [bind modify].
  rewrite He.
  destruct (Text.startswith line "data: "); [| reflexivity].
  destruct (String.eqb _ "[DONE]"); [reflexivity |].
  destruct (negb _); [| reflexivity].
  destruct (json_loads py _) as [j |]; [| reflexivity].
  pose proof (@preserves_try_except _ same_event_trans _
                _ json_decode_error (fun _ => pass)
                (same_event_on_frame py self j)
                (fun _ => @preserves_ret _ same_event_refl _ tt)) as H.
  unfold bind.
  match goal with |- context [try_except ?c ?h ?k ?s0] =>
    specialize (H s0); destruct (try_except c h k s0) as [[[] | e] s1] end;
  cbn [snd] in *; exact H.
Qed.

Lemma event_context_lasts_until_next_event_witness :
  current_event
    (snd (on_line Samples.python
            (Samples.chat_with (Some Samples.say_ok) (Some Samples.app_ok))
            Samples.running_line
            (set_current_event (Some "response.status") empty_store)))
  = Some "response.status".
Proof.
  apply (event_context_lasts_until_next_event Samples.python
           (Samples.chat_with (Some Samples.say_ok) (Some Samples.app_ok))
           Samples.running_line
           (set_current_event (Some "response.status") empty_store)).
  reflexivity.
Defined.
